(** * Sponsor grading: the decision extractor, the sheet gateway and the
      grading pipeline, embedded from [sponsor_grader.py] and
      [sheets_handler.py].

    Python [str] values are Rocq [string]s.  The text model is 7-bit ASCII:
    [upper] maps [a-z] to [A-Z] and leaves every other character alone, and
    the whitespace of [strip] is the ASCII whitespace of [str.isspace]
    (codes 9-13, 28-31 and 32).  Unicode case mapping and Unicode spaces are
    outside the model. *)

From Stdlib Require Import ZArith Ascii DecimalString.
From stdpp Require Import base list gmap strings.

Local Open Scope Z_scope.

(** ** Python string operations used by the source *)

Module PyStr.

(** [c.isspace()] on the ASCII range. *)
Definition is_space (c : ascii) : bool :=
  let n := N_of_ascii c in
  ((9 <=? n) && (n <=? 13) || (28 <=? n) && (n <=? 32))%N.

(** One character of [str.upper()]. *)
Definition upper_char (c : ascii) : ascii :=
  let n := N_of_ascii c in
  if ((97 <=? n) && (n <=? 122))%N then ascii_of_N (n - 32) else c.

(** [s.upper()] *)
Fixpoint upper (s : string) : string :=
  match s with
  | EmptyString => EmptyString
  | String c r => String (upper_char c) (upper r)
  end.

(** [s.lstrip()] *)
Fixpoint lstrip (s : string) : string :=
  match s with
  | EmptyString => EmptyString
  | String c r => if is_space c then lstrip r else s
  end.

(** [s.rstrip()] *)
Fixpoint rstrip (s : string) : string :=
  match s with
  | EmptyString => EmptyString
  | String c r =>
      match rstrip r with
      | EmptyString => if is_space c then EmptyString else String c EmptyString
      | r' => String c r'
      end
  end.

(** [s.strip()] *)
Definition strip (s : string) : string := lstrip (rstrip s).

(** [s.startswith(p)] *)
Definition startswith (p s : string) : bool := String.prefix p s.

(** [needle in s] *)
Fixpoint contains (needle s : string) : bool :=
  String.prefix needle s ||
  match s with
  | EmptyString => false
  | String _ r => contains needle r
  end.

(** [s.split(sep)] for a one-character separator; never the empty list. *)
Fixpoint split (sep : ascii) (s : string) : list string :=
  match s with
  | EmptyString => [EmptyString]
  | String c r =>
      if Ascii.eqb c sep then EmptyString :: split sep r
      else match split sep r with
           | h :: t => String c h :: t
           | [] => [String c EmptyString]
           end
  end.

(** [s.split(sep, 1)]: at most one cut, at the first separator. *)
Fixpoint split_once (sep : ascii) (s : string) : list string :=
  match s with
  | EmptyString => [EmptyString]
  | String c r =>
      if Ascii.eqb c sep then [EmptyString; r]
      else match split_once sep r with
           | h :: t => String c h :: t
           | [] => [String c EmptyString]
           end
  end.

(** [xs[-1]] on a list of strings ([IndexError] cannot arise after a
    split, whose result is never empty). *)
Definition last_item (xs : list string) : string := default EmptyString (last xs).

(** [bool(s)]: a string is truthy when it is not empty. *)
Definition truthy (s : string) : bool :=
  match s with EmptyString => false | _ => true end.

End PyStr.

Import PyStr.

(** ** The decision extractor ([SponsorGrader._extract_tier_and_reasoning]) *)

Definition newline : ascii := "010"%char.
Definition colon : ascii := ":"%char.

(** ["SPONSOR DECISION:" in line.upper()] *)
Definition has_decision_marker (line : string) : bool :=
  contains "SPONSOR DECISION:" (upper line).

(** ["REASONING:" in line.upper()] *)
Definition has_reasoning_marker (line : string) : bool :=
  contains "REASONING:" (upper line).

(** Lines 120-126: the tier named after the last colon of a decision line. *)
Definition classify (line : string) : string :=
  let decision_line := upper (strip (last_item (split colon line))) in
  if contains "FLAGSHIP" decision_line then "Flagship"
  else if contains "ELIGIBLE" decision_line then "Eligible"
  else "Rejected".

(** [lines[j].upper().startswith(('SPONSOR', 'RESEARCH', 'SUMMARY'))] *)
Definition starts_section (line : string) : bool :=
  let u := upper line in
  startswith "SPONSOR" u || startswith "RESEARCH" u || startswith "SUMMARY" u.

(** Lines 131-134: the [while] loop over the lines after the reasoning
    line; [rest] is [lines[i+1:]]. *)
Fixpoint continuation (rest : list string) (reasoning : string) : string :=
  match rest with
  | [] => reasoning
  | l :: rest' =>
      if truthy (strip l) && negb (starts_section l)
      then continuation rest' (reasoning +:+ " " +:+ strip l)
      else reasoning
  end.

(** Lines 118-135: the [for] loop, with its two accumulators; the [break]
    of line 135 is the branch that does not recurse. *)
Fixpoint scan (lines : list string) (category reasoning : string) : string * string :=
  match lines with
  | [] => (category, reasoning)
  | line :: rest =>
      let category := if has_decision_marker line then classify line else category in
      if has_reasoning_marker line
      then (category, continuation rest (strip (last_item (split_once colon line))))
      else scan rest category reasoning
  end.

(** Lines 110-141.  None of the operations in the [try] block raises on a
    [str], so the [except] branch has no counterpart here. *)
Definition _extract_tier_and_reasoning (research_output : string) : string * string :=
  let lines := split newline research_output in
  scan lines "Rejected" "Unable to parse sponsor decision from research output".

(** ** Values and records of a sheet *)

(** What a record holds under a key.  [worksheet.get_all_records()]
    numericises cell texts, so a value is a [str], an [int] or a [float];
    the source only takes [str(v)], [bool(v)] and [v.strip()] of a value, so
    a float is kept as its [str()] text and its truth value. *)
Inductive cell : Type :=
  | CStr (s : string)
  | CInt (z : Z)
  | CFloat (shown : string) (nonzero : bool).

Global Instance cell_eq_dec : EqDecision cell.
Proof. solve_decision. Defined.

(** A record is a Python [dict] from column names to values. *)
Abbreviation sheet_record := (gmap string cell).

(** Exceptions the modelled code can raise. *)
Inductive pyexn : Type :=
  | AttributeError (attr : string)
  | KeyError (key : string).

Inductive result (A : Type) : Type :=
  | Ok (a : A)
  | Raise (e : pyexn).
Arguments Ok {A} a.
Arguments Raise {A} e.

(** [str(v)] *)
Definition py_str (v : cell) : string :=
  match v with
  | CStr s => s
  | CInt z => NilZero.string_of_int (Z.to_int z)
  | CFloat shown _ => shown
  end.

(** [bool(v)] *)
Definition cell_truthy (v : cell) : bool :=
  match v with
  | CStr s => truthy s
  | CInt z => negb (z =? 0)
  | CFloat _ nonzero => nonzero
  end.

(** [a or b] *)
Definition py_or (a b : cell) : cell := if cell_truthy a then a else b.

(** [record.get(key, default)] *)
Definition dict_get (record : sheet_record) (key : string) (dflt : cell) : cell :=
  default dflt (record !! key).

(** [v.strip()]: only a [str] has the method. *)
Definition cell_strip (v : cell) : result string :=
  match v with
  | CStr s => Ok (strip s)
  | _ => Raise (AttributeError "strip")
  end.

(** [x in xs] and [xs.index(x)] in one: the first position of [x]. *)
Fixpoint index_of (x : string) (xs : list string) : option nat :=
  match xs with
  | [] => None
  | y :: ys => if String.eqb y x then Some 0%nat else S <$> index_of x ys
  end.

(** [xs[:n]] *)
Definition py_slice_to {A} (n : Z) (xs : list A) : list A :=
  if 0 <=? n then take (Z.to_nat n) xs
  else take (length xs - Z.to_nat (- n)) xs.

(** ** The worksheet behind the gateway

    The [gspread] worksheet is an external collaborator.  It is modelled as
    the grid of cell texts the Sheets values API returns, row 1 (the header)
    first; communication failures are not modelled. *)

Abbreviation Worksheet := (list (list string)).

(** Trailing empty cells are not reported by the values API. *)
Fixpoint trim_row (row : list string) : list string :=
  match row with
  | [] => []
  | c :: r =>
      match trim_row r with
      | [] => if truthy c then [c] else []
      | r' => c :: r'
      end
  end.

(** [worksheet.row_values(1)] *)
Definition ws_header_values (ws : Worksheet) : list string := trim_row (hd [] ws).

(** Writing position [i] of a list, filling a gap with [d]. *)
Fixpoint set_at {A} (d : A) (i : nat) (x : A) (l : list A) : list A :=
  match i, l with
  | O, [] => [x]
  | O, _ :: t => x :: t
  | S i', [] => d :: set_at d i' x []
  | S i', h :: t => h :: set_at d i' x t
  end.

(** [worksheet.update_cell(row, col, value)]: 1-based; a label below 1
    raises, which is the [None]. *)
Definition ws_update_cell (ws : Worksheet) (row col : Z) (value : string)
  : option Worksheet :=
  if (row <? 1) || (col <? 1) then None
  else
    let r := Z.to_nat (row - 1) in
    let c := Z.to_nat (col - 1) in
    Some (set_at [] r (set_at EmptyString c value (nth r ws [])) ws).

(** [dict(zip(keys, values))]: a later duplicate key wins. *)
Definition dict_zip (keys : list string) (values : list cell) : sheet_record :=
  foldl (λ m kv, <[kv.1 := kv.2]> m) ∅ (zip keys values).

(** The width of the grid: the length of its longest row (the values API
    result is padded to a rectangle before records are built). *)
Definition grid_width (ws : Worksheet) : nat :=
  foldr (λ row w, Nat.max (length row) w) 0%nat ws.

Section Gateway.

(** [gspread]'s conversion of a cell text to a value (its parsing of
    numbers is not part of this repository). *)
Variable numericise : string → cell.

(** [worksheet.get_all_records()]: one dict per data row, in sheet order,
    keyed by the header row; the [k]-th dict (from 0) is sheet row
    [k + 2].  This is the call when it returns: recent [gspread] versions
    raise [GSpreadException] instead when the padded header row has two
    columns of the same name, and such sheets, like communication failures,
    are outside the model. *)
Definition ws_get_all_records (ws : Worksheet) : list sheet_record :=
  match ws with
  | [] => []
  | keys :: rows =>
      let w := grid_width ws in
      map (λ row, dict_zip (resize w EmptyString keys)
                           (numericise <$> resize w EmptyString row)) rows
  end.

(** *** [SheetsHandler] *)

(** Lines 88-91: the test of the filter in [get_all_records]. *)
Definition is_valid_record (record : sheet_record) : bool :=
  let timestamp := strip (py_str (dict_get record "Timestamp" (CStr ""))) in
  let project_name :=
    strip (py_str (py_or (dict_get record "Company Name" (CStr ""))
                         (dict_get record "Company Name " (CStr "")))) in
  truthy timestamp && truthy project_name.

(** [SheetsHandler.get_all_records], on the records the worksheet gave. *)
Definition valid_records (records : list sheet_record) : list sheet_record :=
  List.filter is_valid_record records.

Definition get_all_records (ws : Worksheet) : list sheet_record :=
  valid_records (ws_get_all_records ws).

(** Lines 106-113: the loop of [get_unprocessed_records] from index [i]. *)
Fixpoint unprocessed_from (i : Z) (all_records : list sheet_record)
  : result (list sheet_record) :=
  match all_records with
  | [] => Ok []
  | record :: rest =>
      match cell_strip (dict_get record "Research Notes" (CStr "")) with
      | Raise e => Raise e
      | Ok research_notes =>
          match cell_strip (dict_get record "Decision" (CStr "")) with
          | Raise e => Raise e
          | Ok decision =>
              match unprocessed_from (i + 1) rest with
              | Raise e => Raise e
              | Ok unprocessed =>
                  if String.eqb research_notes "" && String.eqb decision ""
                  then Ok (<["_row_index" := CInt (i + 2)]> record :: unprocessed)
                  else Ok unprocessed
              end
          end
      end
  end.

(** [SheetsHandler.get_unprocessed_records] *)
Definition get_unprocessed_records (ws : Worksheet) : result (list sheet_record) :=
  unprocessed_from 0 (get_all_records ws).

(** Lines 128-133: the loop of [update_record]; [false] when
    [update_cell] raised (the [except] of line 138). *)
Fixpoint update_fields (headers : list string) (ws : Worksheet) (row_index : Z)
    (updates : list (string * cell)) : Worksheet * bool :=
  match updates with
  | [] => (ws, true)
  | (field, value) :: rest =>
      match index_of field headers with
      | Some k =>
          let col_index := Z.of_nat k + 1 in
          match ws_update_cell ws row_index col_index (py_str value) with
          | Some ws' => update_fields headers ws' row_index rest
          | None => (ws, false)
          end
      | None => update_fields headers ws row_index rest
      end
  end.

(** [SheetsHandler.update_record]; [updates] lists the dict's items in
    insertion order. *)
Definition update_record (ws : Worksheet) (row_index : Z)
    (updates : list (string * cell)) : Worksheet * bool :=
  let headers := ws_header_values ws in
  update_fields headers ws row_index updates.

(** Lines 147-153: the loop of [add_columns_if_missing], with the local
    list [headers]. *)
Fixpoint add_columns (headers : list string) (ws : Worksheet)
    (required_columns : list string) : Worksheet * bool :=
  match required_columns with
  | [] => (ws, true)
  | column :: rest =>
      match index_of column headers with
      | Some _ => add_columns headers ws rest
      | None =>
          let col_index := Z.of_nat (length headers) + 1 in
          match ws_update_cell ws 1 col_index column with
          | Some ws' => add_columns (headers ++ [column]) ws' rest
          | None => (ws, false)
          end
      end
  end.

(** [SheetsHandler.add_columns_if_missing] *)
Definition add_columns_if_missing (ws : Worksheet) (required_columns : list string)
  : Worksheet * bool :=
  add_columns (ws_header_values ws) ws required_columns.

(** [SheetsHandler.setup_required_columns] *)
Definition setup_required_columns (ws : Worksheet) : Worksheet * bool :=
  add_columns_if_missing ws ["Research Notes"; "Decision"].

End Gateway.

(** ** The grading pipeline ([SponsorGrader]) *)

(** [SponsorGrader._build_research_prompt]; the three values are formatted
    into the f-string with [str()]. *)
Definition _build_research_prompt (company_name website_url description : cell) : string :=
  "
You are a professional sponsor evaluation analyst for Token Metrics. Your task is to thoroughly research and grade potential sponsors on a tier system (A, B, C).

Company Information:
- Name: " +:+ py_str company_name +:+ "
- Website: " +:+ py_str website_url +:+ "
- Description: " +:+ py_str description +:+ "

Research Requirements:
1. Company Background & Legitimacy
   - Verify company existence and legitimacy
   - Check company registration, founding date, key personnel
   - Assess business model and core offerings

2. Financial Stability & Reputation
   - Look for funding rounds, revenue information, financial health
   - Check for any financial difficulties or bankruptcies
   - Assess market position and competitive standing

3. FUD (Fear, Uncertainty, Doubt) Analysis
   - Search for negative news, controversies, scandals
   - Check for regulatory issues, legal problems
   - Look for customer complaints, security breaches
   - Assess any reputational risks

4. Industry Standing
   - Evaluate industry reputation and peer recognition
   - Check for awards, certifications, partnerships
   - Assess leadership team credibility

Grading Criteria:
- Flagship Sponsors: Global leaders with strong brand equity and deep budgets. Excellent reputation, strong financials, no significant FUD, industry leader status.
- Eligible Sponsors: Solid, reputable brands that meet our standards but are not top tier. Good reputation, stable financials, minor concerns that don't significantly impact credibility.
- Rejected Sponsors: Entities that fail financial, brand-fit, or compliance checks. Poor reputation, financial instability, significant FUD, or high-risk factors.

Please provide:
1. A comprehensive research summary covering all areas above
2. Your final sponsor category recommendation (Flagship, Eligible, or Rejected)
3. A clear 2-3 sentence reasoning for your decision

Format your response exactly as follows (no markdown formatting, only plain text):
RESEARCH SUMMARY:
[Your detailed research findings]

SPONSOR DECISION: [Flagship/Eligible/Rejected]
REASONING: [2-3 sentence explanation]
".

(** What the pipeline did for one record: the record, the two values handed
    to [update_record], and the flag [update_record] returned. *)
Record graded : Type := Graded {
  g_record : sheet_record;
  g_notes : string;
  g_decision : string;
  g_success : bool
}.

(** The state of a run of [process_unprocessed_records]: the worksheet, the
    records handled so far in order, and the exception that ended the run
    early (the [except] of line 184), if any. *)
Record run : Type := Run {
  run_sheet : Worksheet;
  run_graded : list graded;
  run_error : option pyexn
}.

(** Lines 157-158: [if max_records: records = records[:max_records]];
    [None] and [0] are falsy and leave the list alone. *)
Definition limit_records {A} (max_records : option Z) (records : list A) : list A :=
  match max_records with
  | Some n => if n =? 0 then records else py_slice_to n records
  | None => records
  end.

Definition technical_error_decision : string :=
  "Rejected Sponsor: Unable to complete research due to technical error".

Section Pipeline.

Variable numericise : string → cell.

(** The research client: the streamed call of lines 34-45 on a prompt,
    either the concatenated text deltas or the [str(e)] of the exception
    it raised. *)
Variable client : string → string + string.

(** [SponsorGrader.research_and_grade_company] *)
Definition research_and_grade_company (company_data : sheet_record) : string * string :=
  let company_name := dict_get company_data "Company Name" (CStr "Unknown Company") in
  let website_url := dict_get company_data "Website URL" (CStr "") in
  let company_description := dict_get company_data "Company Description" (CStr "") in
  let research_prompt :=
    _build_research_prompt company_name website_url company_description in
  match client research_prompt with
  | inl research_output =>
      let '(category, reasoning) := _extract_tier_and_reasoning research_output in
      (research_output, category +:+ " Sponsor: " +:+ reasoning)
  | inr e =>
      ("Research failed: " +:+ e, technical_error_decision)
  end.

(** What the loop records for a record it graded and whose
    [update_record] reported success. *)
Definition graded_entry (record : sheet_record) : graded :=
  Graded record (research_and_grade_company record).1
         (research_and_grade_company record).2 true.

(** Lines 162-180: the loop over the records to process.  A record from
    [get_unprocessed_records] carries an [int] under ['_row_index'];
    without the key line 170 raises [KeyError], and the model stops the
    run in the same way on a locator that is not an [int]. *)
Fixpoint process_records (ws : Worksheet) (handled : list graded)
    (records : list sheet_record) : run :=
  match records with
  | [] => Run ws handled None
  | record :: rest =>
      let '(research_notes, decision) := research_and_grade_company record in
      match record !! "_row_index" with
      | Some (CInt row_index) =>
          let updates := [("Research Notes", CStr research_notes);
                          ("Decision", CStr decision)] in
          let '(ws', success) := update_record ws row_index updates in
          process_records ws' (handled ++ [Graded record research_notes decision success]) rest
      | _ => Run ws handled (Some (KeyError "_row_index"))
      end
  end.

(** [SponsorGrader.process_unprocessed_records] on the connected
    worksheet; [max_records = None] is the absent argument. *)
Definition process_unprocessed_records (ws : Worksheet) (max_records : option Z) : run :=
  match get_unprocessed_records numericise ws with
  | Raise e => Run ws [] (Some e)
  | Ok unprocessed_records =>
      match unprocessed_records with
      | [] => Run ws [] None
      | _ =>
          let unprocessed_records := limit_records max_records unprocessed_records in
          process_records ws [] unprocessed_records
      end
  end.

End Pipeline.

(** ** Reading the sheet back, and where records live *)

(** [worksheet.cell(row, col).value]: the text at a 1-based position, empty
    outside the grid. *)
Definition cell_text (ws : Worksheet) (row col : Z) : string :=
  nth (Z.to_nat (col - 1)) (nth (Z.to_nat (row - 1)) ws []) EmptyString.

(** The cells of one sheet row. *)
Definition sheet_row (ws : Worksheet) (row : Z) : list string :=
  nth (Z.to_nat (row - 1)) ws [].

(** A record counts as unprocessed when both of its result fields are texts
    that strip to nothing (line 111). *)
Definition is_unprocessed (record : sheet_record) : bool :=
  match cell_strip (dict_get record "Research Notes" (CStr "")),
        cell_strip (dict_get record "Decision" (CStr "")) with
  | Ok research_notes, Ok decision =>
      String.eqb research_notes "" && String.eqb decision ""
  | _, _ => false
  end.

(** The sheet rows (1-based, header in row 1) of the records that are valid
    and unprocessed, where [row] is the sheet row of the first record. *)
Fixpoint unprocessed_rows_from (row : Z) (records : list sheet_record) : list Z :=
  match records with
  | [] => []
  | record :: rest =>
      if is_valid_record record && is_unprocessed record
      then row :: unprocessed_rows_from (row + 1) rest
      else unprocessed_rows_from (row + 1) rest
  end.

Definition unprocessed_rows (numericise : string → cell) (ws : Worksheet) : list Z :=
  unprocessed_rows_from 2 (ws_get_all_records numericise ws).

(** The row locator a record carries. *)
Definition row_locator (record : sheet_record) : option Z :=
  match record !! "_row_index" with
  | Some (CInt z) => Some z
  | _ => None
  end.

(** The prompt the pipeline sends for a record (lines 25-30). *)
Definition prompt_for (company_data : sheet_record) : string :=
  _build_research_prompt
    (dict_get company_data "Company Name" (CStr "Unknown Company"))
    (dict_get company_data "Website URL" (CStr ""))
    (dict_get company_data "Company Description" (CStr "")).

(** ** Concrete collaborators for running the model *)

(** [gspread]'s conversion on the texts of the examples below: a text of
    decimal digits becomes an [int], any other text stays a [str]. *)
Definition numericise_digits (s : string) : cell :=
  match s with
  | EmptyString => CStr EmptyString
  | _ => match NilEmpty.uint_of_string s with
         | Some u => CInt (Z.of_uint u)
         | None => CStr s
         end
  end.

(** A research client whose every call fails with a timeout. *)
Definition client_timeout (prompt : string) : string + string :=
  inr "Request timed out.".

(** A research client that answers every prompt with the same transcript. *)
Definition client_const (transcript prompt : string) : string + string :=
  inl transcript.

(** The locators of a list of records increase strictly and start at [lo]
    or above. *)
Fixpoint increasing_locators (lo : Z) (records : list sheet_record) : Prop :=
  match records with
  | [] => True
  | record :: rest =>
      ∃ L, row_locator record = Some L ∧ lo ≤ L ∧ increasing_locators (L + 1) rest
  end.

(** The two result fields of a record are texts that strip to nothing. *)
Definition blank_results (record : sheet_record) : Prop :=
  ∃ research_notes decision,
    dict_get record "Research Notes" (CStr "") = CStr research_notes
    ∧ strip research_notes = ""
    ∧ dict_get record "Decision" (CStr "") = CStr decision
    ∧ strip decision = "".

(** Sample sheets. *)
Definition sheet_header : list string :=
  ["Timestamp"; "Company Name"; "Research Notes"; "Decision"].

Definition sheet_with_filtered_row : Worksheet :=
  [sheet_header;
   [""; "Ghost"; ""; ""];
   ["t1"; "Acme"; ""; ""]].

Definition sheet_with_space_decision : Worksheet :=
  [sheet_header;
   ["t1"; "Acme"; ""; " "]].

Definition sheet_without_result_columns : Worksheet :=
  [["Timestamp"; "Company Name"];
   ["t1"; "Acme"]].

Definition sheet_five_unprocessed : Worksheet :=
  [sheet_header;
   ["t1"; "Acme"; ""; ""];
   ["t2"; "Bolt"; ""; ""];
   ["t3"; "Cog"; ""; ""];
   ["t4"; "Dyne"; ""; ""];
   ["t5"; "Echo"; ""; ""]].

(** The unprocessed records of a sample sheet (none when the call raises). *)
Definition unprocessed_of (ws : Worksheet) : list sheet_record :=
  match get_unprocessed_records numericise_digits ws with
  | Ok us => us
  | Raise _ => []
  end.

Definition five_unprocessed_records : list sheet_record :=
  unprocessed_of sheet_five_unprocessed.

Definition first_unprocessed_record : sheet_record :=
  default ∅ (head five_unprocessed_records).

Definition space_decision_record : sheet_record :=
  default ∅ (head (unprocessed_of sheet_with_space_decision)).

Definition acme_record : sheet_record :=
  default ∅ (head (unprocessed_of sheet_with_filtered_row)).

(** ** More of the extractor and of the pipeline's texts *)

(** The closed set of tiers (lines 121-126). *)
Definition tiers : list string := ["Flagship"; "Eligible"; "Rejected"].

(** The test of the [while] loop of line 132 on one following line. *)
Definition continues (line : string) : bool :=
  truthy (strip line) && negb (starts_section line).

(** What lines 133-134 append for the lines the loop accepts. *)
Definition join_continuation (reasoning : string) (accepted : list string) : string :=
  foldl (λ acc l, acc +:+ " " +:+ strip l) reasoning accepted.

(** [decision.split(':')[0]], the label printed by line 178. *)
Definition decision_label (decision : string) : string :=
  default EmptyString (head (split colon decision)).

(** ** [SheetsHandler.get_record_by_row] *)

(** [worksheet.row_values(row)]: the cells of a row without its trailing
    empty cells; a row number below 1 raises, which is the [None]. *)
Definition ws_row_values (ws : Worksheet) (row : Z) : option (list string) :=
  if row <? 1 then None else Some (trim_row (sheet_row ws row)).

(** Lines 168-169: [while len(values) < len(headers): values.append('')]. *)
Definition pad_values (headers values : list string) : list string :=
  values ++ replicate (length headers - length values) EmptyString.

(** [SheetsHandler.get_record_by_row]; [None] is the [return None] of the
    [except] branch.  The values of [row_values] are texts. *)
Definition get_record_by_row (ws : Worksheet) (row_index : Z) : option sheet_record :=
  let headers := ws_header_values ws in
  match ws_row_values ws row_index with
  | None => None
  | Some values =>
      let values := pad_values headers values in
      let record := dict_zip headers (CStr <$> values) in
      Some (<["_row_index" := CInt row_index]> record)
  end.

(** ** Configuration ([config.py]) *)

(** The environment values [os.getenv] gave: [None] when a variable is not
    set. *)
Record Config : Type := mkConfig {
  OPENAI_API_KEY : option string;
  GOOGLE_CLIENT_ID : option string;
  GOOGLE_CLIENT_SECRET : option string;
  GOOGLE_REFRESH_TOKEN : option string;
  MEDIA_SHEET_URL : option string;
  BLOG_SHEET_URL : option string
}.

(** [bool(v)] of an optional text: [None] and the empty text are falsy. *)
Definition opt_truthy (v : option string) : bool :=
  match v with
  | Some s => truthy s
  | None => false
  end.

(** The character class [[a-zA-Z0-9-_]] of the pattern of line 25. *)
Definition is_id_char (c : ascii) : bool :=
  let n := N_of_ascii c in
  ((97 <=? n) && (n <=? 122) || (65 <=? n) && (n <=? 90)
   || (48 <=? n) && (n <=? 57) || (n =? 45) || (n =? 95))%N.

(** The longest run of class characters at the start of a text (the greedy
    [+] of the group). *)
Fixpoint take_id (s : string) : string :=
  match s with
  | EmptyString => EmptyString
  | String c r => if is_id_char c then String c (take_id r) else EmptyString
  end.

(** The rest of [s] after the literal [p], when [s] starts with [p]. *)
Fixpoint after_prefix (p s : string) : option string :=
  match p with
  | EmptyString => Some s
  | String a p' =>
      match s with
      | EmptyString => None
      | String b s' => if Ascii.eqb a b then after_prefix p' s' else None
      end
  end.

(** The match at the start of [s], if there is one: the literal and at
    least one class character. *)
Definition match_sheet_id_here (s : string) : option string :=
  match after_prefix "/spreadsheets/d/" s with
  | Some rest =>
      match take_id rest with
      | EmptyString => None
      | sheet_id => Some sheet_id
      end
  | None => None
  end.

(** [re.search(r'/spreadsheets/d/([a-zA-Z0-9-_]+)', s)] and its group 1:
    the leftmost position where the pattern matches. *)
Fixpoint search_sheet_id (s : string) : option string :=
  match match_sheet_id_here s with
  | Some sheet_id => Some sheet_id
  | None =>
      match s with
      | EmptyString => None
      | String _ r => search_sheet_id r
      end
  end.

(** [Config.get_sheet_id] *)
Definition get_sheet_id (sheet_url : option string) : option string :=
  match sheet_url with
  | Some url => if truthy url then search_sheet_id url else None
  | None => None
  end.

(** The properties [MEDIA_SHEET_ID] and [BLOG_SHEET_ID]. *)
Definition MEDIA_SHEET_ID (cfg : Config) : option string :=
  get_sheet_id (MEDIA_SHEET_URL cfg).

Definition BLOG_SHEET_ID (cfg : Config) : option string :=
  get_sheet_id (BLOG_SHEET_URL cfg).

(** [sep.join(xs)] *)
Fixpoint py_join (sep : string) (xs : list string) : string :=
  match xs with
  | [] => EmptyString
  | [x] => x
  | x :: rest => x +:+ sep +:+ py_join sep rest
  end.

(** Lines 41-54: the names [validate_config] collects, in its order. *)
Definition missing_variables (cfg : Config) (require_openai : bool) : list string :=
  (if require_openai && negb (opt_truthy (OPENAI_API_KEY cfg))
   then ["OPENAI_API_KEY"] else [])
  ++ (if opt_truthy (GOOGLE_CLIENT_ID cfg) then [] else ["GOOGLE_CLIENT_ID"])
  ++ (if opt_truthy (GOOGLE_CLIENT_SECRET cfg) then [] else ["GOOGLE_CLIENT_SECRET"])
  ++ (if opt_truthy (GOOGLE_REFRESH_TOKEN cfg) then [] else ["GOOGLE_REFRESH_TOKEN"])
  ++ (if opt_truthy (MEDIA_SHEET_URL cfg) then [] else ["MEDIA_SHEET_URL"])
  ++ (if opt_truthy (BLOG_SHEET_URL cfg) then [] else ["BLOG_SHEET_URL"]).

(** A call that returns a value or raises [ValueError] with a message. *)
Inductive checked (A : Type) : Type :=
  | Passed (a : A)
  | ValueError (msg : string).
Arguments Passed {A} a.
Arguments ValueError {A} msg.

(** [Config.validate_config] *)
Definition validate_config (cfg : Config) (require_openai : bool) : checked bool :=
  match missing_variables cfg require_openai with
  | [] => Passed true
  | missing =>
      ValueError ("Missing required environment variables: " +:+ py_join ", " missing)
  end.

(** Lines 62-72 of [SheetsHandler._connect]: the sheet id the handler
    opens.  The OAuth refresh and the opening of the sheet are outside the
    model. *)
Definition connect_sheet_id (cfg : Config) (sheet_type : string) : checked string :=
  if String.eqb sheet_type "media" then
    match MEDIA_SHEET_ID cfg with
    | Some sheet_id => if truthy sheet_id then Passed sheet_id
                       else ValueError ("No " +:+ sheet_type +:+ " sheet ID found")
    | None => ValueError ("No " +:+ sheet_type +:+ " sheet ID found")
    end
  else if String.eqb sheet_type "blog" then
    match BLOG_SHEET_ID cfg with
    | Some sheet_id => if truthy sheet_id then Passed sheet_id
                       else ValueError ("No " +:+ sheet_type +:+ " sheet ID found")
    | None => ValueError ("No " +:+ sheet_type +:+ " sheet ID found")
    end
  else ValueError ("Unknown sheet type: " +:+ sheet_type).

(** ** Predicates used to state properties *)

(** Both result fields of a record are texts (an absent field counts as
    the empty text), so that [.strip()] is defined on them. *)
Definition has_text_results (record : sheet_record) : bool :=
  match dict_get record "Research Notes" (CStr ""),
        dict_get record "Decision" (CStr "") with
  | CStr _, CStr _ => true
  | _, _ => false
  end.

(** Every character of a text passes a test. *)
Fixpoint all_chars (p : ascii → bool) (s : string) : bool :=
  match s with
  | EmptyString => true
  | String c r => p c && all_chars p r
  end.

(** The grid has a cell at a 1-based position and it holds [v]. *)
Definition cell_holds (ws : Worksheet) (row col : Z) (v : string) : Prop :=
  ∃ cells, ws !! Z.to_nat (row - 1) = Some cells
           ∧ cells !! Z.to_nat (col - 1) = Some v.

(** The literal part of the pattern of [get_sheet_id]. *)
Definition sheet_url_literal : string := "/spreadsheets/d/".

Definition sheet_with_numeric_decision : Worksheet :=
  [sheet_header;
   ["t1"; "Acme"; ""; "1"]].

Definition record_after_setup : sheet_record :=
  default ∅ (head (unprocessed_of
                     (setup_required_columns sheet_without_result_columns).1)).

(** A configuration with every variable set, whose media URL is not a
    sheet URL. *)
Definition config_with_bad_media_url : Config :=
  mkConfig (Some "sk-test") (Some "client") (Some "secret") (Some "refresh")
           (Some "https://example.com/media")
           (Some "https://docs.google.com/spreadsheets/d/1AbC-d_9/edit#gid=0").

(** * Facts about the string operations *)

Module PyStrFacts.

Lemma app_nil_l (s : string) : "" +:+ s = s.
Proof. reflexivity. Qed.

Lemma app_cons (c : ascii) (a b : string) : String c a +:+ b = String c (a +:+ b).
Proof. reflexivity. Qed.

Lemma app_nil_r (s : string) : s +:+ "" = s.
Proof. induction s as [|c s IH]; [done|]. by rewrite app_cons, IH. Qed.

Lemma app_assoc (a b c : string) : a +:+ (b +:+ c) = (a +:+ b) +:+ c.
Proof. induction a as [|x a IH]; [done|]. by rewrite !app_cons, IH. Qed.

Lemma is_space_upper_char (c : ascii) : is_space (upper_char c) = is_space c.
Proof. by destruct c as [[] [] [] [] [] [] [] []]. Qed.

Lemma upper_lstrip (s : string) : upper (lstrip s) = lstrip (upper s).
Proof.
  induction s as [|c s IH]; [done|].
  simpl. rewrite is_space_upper_char. by destruct (is_space c).
Qed.

Lemma upper_rstrip (s : string) : upper (rstrip s) = rstrip (upper s).
Proof.
  induction s as [|c s IH]; [done|].
  simpl. rewrite <- IH, is_space_upper_char.
  destruct (rstrip s); simpl; [by destruct (is_space c)|done].
Qed.

Lemma upper_strip (s : string) : upper (strip s) = strip (upper s).
Proof. unfold strip. by rewrite upper_lstrip, upper_rstrip. Qed.

Lemma prefix_nil (s : string) : String.prefix "" s = true.
Proof. by destruct s. Qed.

Lemma prefix_app (n b : string) : String.prefix n (n +:+ b) = true.
Proof.
  induction n as [|c n IH]; [apply prefix_nil|].
  rewrite app_cons. simpl. by destruct (ascii_dec c c).
Qed.

Lemma prefix_inv (n s : string) :
  String.prefix n s = true → ∃ b, s = n +:+ b.
Proof.
  revert s. induction n as [|c n IH]; intros s H.
  - by exists s.
  - destruct s as [|d s]; [done|]. simpl in H.
    destruct (ascii_dec c d) as [->|]; [|done].
    destruct (IH _ H) as [b ->]. by exists b.
Qed.

Lemma contains_prefix (n s : string) :
  String.prefix n s = true → contains n s = true.
Proof. intros H. destruct s; simpl in *; by rewrite H. Qed.

Lemma contains_app (a n b : string) : contains n (a +:+ n +:+ b) = true.
Proof.
  induction a as [|c a IH].
  - rewrite app_nil_l. apply contains_prefix, prefix_app.
  - rewrite app_cons. simpl. rewrite IH. apply orb_true_r.
Qed.

Lemma contains_inv (n s : string) :
  contains n s = true → ∃ a b, s = a +:+ n +:+ b.
Proof.
  induction s as [|c s IH]; intros H.
  - unfold contains in H. rewrite orb_false_r in H.
    destruct (prefix_inv _ _ H) as [b Hb]. by exists "", b.
  - change (String.prefix n (String c s) || contains n s = true) in H.
    apply orb_true_iff in H as [H|H].
    + destruct (prefix_inv _ _ H) as [b Hb]. by exists "", b.
    + destruct (IH H) as (a & b & ->). by exists (String c a), b.
Qed.

Lemma rstrip_app_nonspace (a : string) (c : ascii) (b : string) :
  is_space c = false →
  rstrip (a +:+ String c b) = a +:+ String c (rstrip b).
Proof.
  intros Hc. induction a as [|x a IH].
  - rewrite !app_nil_l. simpl. rewrite Hc. by destruct (rstrip b).
  - rewrite !app_cons. simpl. rewrite IH.
    by destruct a.
Qed.

Lemma lstrip_app_nonspace (a : string) (c : ascii) (b : string) :
  is_space c = false →
  ∃ a', lstrip (a +:+ String c b) = a' +:+ String c b.
Proof.
  intros Hc. induction a as [|x a [a' IH]].
  - exists "". rewrite !app_nil_l. simpl. by rewrite Hc.
  - rewrite app_cons. simpl. destruct (is_space x).
    + by exists a'.
    + by exists (String x a).
Qed.

(** Stripping keeps an occurrence of a needle that neither starts nor
    ends with whitespace. *)
Lemma contains_strip (c0 cl : ascii) (n1 n0 s : string) :
  String c0 n1 = n0 +:+ String cl "" →
  is_space c0 = false → is_space cl = false →
  contains (String c0 n1) s = true →
  contains (String c0 n1) (strip s) = true.
Proof.
  intros Hn H0 Hl H.
  destruct (contains_inv _ _ H) as (a & b & ->).
  unfold strip.
  assert (a +:+ String c0 n1 +:+ b = (a +:+ n0) +:+ String cl b) as ->.
  { rewrite Hn. rewrite <- !app_assoc. by rewrite (app_cons cl "" b). }
  rewrite (rstrip_app_nonspace _ _ _ Hl).
  assert ((a +:+ n0) +:+ String cl (rstrip b)
          = a +:+ String c0 (n1 +:+ rstrip b)) as ->.
  { rewrite <- app_cons, Hn, <- !app_assoc. by rewrite (app_cons cl "" (rstrip b)). }
  destruct (lstrip_app_nonspace a c0 (n1 +:+ rstrip b) H0) as [a' ->].
  rewrite <- app_cons. apply contains_app.
Qed.

Lemma split_nonempty (sep : ascii) (s : string) : split sep s ≠ [].
Proof.
  induction s as [|c s IH]; simpl; [done|].
  destruct (Ascii.eqb c sep); [done|]. by destruct (split sep s).
Qed.

End PyStrFacts.

(** * The decision extractor *)

Section Extractor.

Implicit Types (lines : list string) (line category reasoning : string).

(** The category only changes on a decision line: when every decision
    line of [lines] classifies as [category], the scan ends with it. *)
Lemma scan_category_stable lines category reasoning :
  (∀ l, l ∈ lines → has_decision_marker l = true → classify l = category) →
  (scan lines category reasoning).1 = category.
Proof.
  revert reasoning. induction lines as [|line rest IH]; intros reasoning H; [done|].
  simpl.
  assert ((if has_decision_marker line then classify line else category) = category) as ->.
  { destruct (has_decision_marker line) eqn:E; [|done].
    apply H; [apply list_elem_of_here|done]. }
  destruct (has_reasoning_marker line); [done|].
  apply IH. intros l Hl. apply H. by apply list_elem_of_further.
Qed.

(** A tier word after the last colon survives [strip] and [upper]. *)
Lemma classify_flagship line :
  contains "FLAGSHIP" (upper (last_item (split colon line))) = true →
  classify line = "Flagship".
Proof.
  intros H. unfold classify.
  rewrite PyStrFacts.upper_strip.
  by rewrite (PyStrFacts.contains_strip "F" "P" "LAGSHIP" "FLAGSHI").
Qed.

Lemma scan_flagship lines (k : nat) line category reasoning :
  lines !! k = Some line →
  has_decision_marker line = true →
  classify line = "Flagship" →
  (∀ i l, (i < k)%nat → lines !! i = Some l → has_reasoning_marker l = false) →
  (∀ i l, (k < i)%nat → lines !! i = Some l →
          has_decision_marker l = true → classify l = "Flagship") →
  (scan lines category reasoning).1 = "Flagship".
Proof.
  revert k category reasoning.
  induction lines as [|l0 rest IH]; intros k category reasoning Hk Hd Hf Hbefore Hafter;
    [done|].
  destruct k as [|k]; simpl in Hk.
  - injection Hk as ->. simpl. rewrite Hd, Hf.
    destruct (has_reasoning_marker line); [done|].
    apply scan_category_stable. intros l Hl Hdl.
    apply list_elem_of_lookup in Hl as [i Hi].
    apply (Hafter (S i) l); [lia|done|done].
  - simpl. rewrite (Hbefore 0%nat l0); [|lia|done].
    apply (IH k); [done..| |].
    + intros i l Hi Hl. apply (Hbefore (S i) l); [lia|done].
    + intros i l Hi Hl. apply (Hafter (S i) l); [lia|done].
Qed.

Lemma scan_reasoning lines (k : nat) line blank category reasoning :
  lines !! k = Some line →
  has_reasoning_marker line = true →
  (∀ i l, (i < k)%nat → lines !! i = Some l → has_reasoning_marker l = false) →
  lines !! S k = Some blank →
  strip blank = "" →
  (scan lines category reasoning).2 = strip (last_item (split_once colon line)).
Proof.
  revert k category reasoning.
  induction lines as [|l0 rest IH]; intros k category reasoning Hk Hr Hbefore Hnext Hblank;
    [done|].
  destruct k as [|k]; simpl in Hk, Hnext.
  - injection Hk as ->. simpl. rewrite Hr. simpl.
    destruct rest as [|b rest']; [done|]. injection Hnext as ->.
    simpl. by rewrite Hblank.
  - simpl. rewrite (Hbefore 0%nat l0); [|lia|done].
    apply (IH k); [done..| |done|done].
    intros i l Hi Hl. apply (Hbefore (S i) l); [lia|done].
Qed.

End Extractor.

(** C2. A transcript none of whose lines contains the marker
    "SPONSOR DECISION:" (in any letter case) is graded Rejected: without a
    decision marker the extractor never answers Flagship or Eligible. *)
Theorem no_decision_marker_is_rejected (transcript : string) :
  (∀ line, line ∈ split newline transcript → has_decision_marker line = false) →
  (_extract_tier_and_reasoning transcript).1 = "Rejected"
  ∧ (_extract_tier_and_reasoning transcript).1 ≠ "Flagship"
  ∧ (_extract_tier_and_reasoning transcript).1 ≠ "Eligible".
Proof.
  intros H.
  assert ((_extract_tier_and_reasoning transcript).1 = "Rejected") as E.
  { unfold _extract_tier_and_reasoning. apply scan_category_stable.
    intros l Hl Hd. rewrite (H l Hl) in Hd. done. }
  rewrite E. done.
Qed.

Lemma no_decision_marker_is_rejected_witness :
  (_extract_tier_and_reasoning "RESEARCH SUMMARY:
A flagship brand, eligible for everything.
REASONING: Excellent.").1 = "Rejected".
Proof.
  apply no_decision_marker_is_rejected.
  intros line Hl. vm_compute in Hl.
  repeat (apply elem_of_cons in Hl as [->|Hl]; [reflexivity|]).
  by apply elem_of_nil in Hl.
Defined.

(** C1, as the code has it.  When a line contains the marker
    "SPONSOR DECISION:" (any case) with FLAGSHIP (any case) after its last
    colon, no line before it contains the marker "REASONING:", and every
    later decision line also names FLAGSHIP, the extractor answers
    Flagship. *)
Theorem flagship_decision_before_reasoning (transcript : string) (k : nat) (line : string) :
  split newline transcript !! k = Some line →
  has_decision_marker line = true →
  contains "FLAGSHIP" (upper (last_item (split colon line))) = true →
  (∀ i l, (i < k)%nat → split newline transcript !! i = Some l →
          has_reasoning_marker l = false) →
  (∀ i l, (k < i)%nat → split newline transcript !! i = Some l →
          has_decision_marker l = true →
          contains "FLAGSHIP" (upper (last_item (split colon l))) = true) →
  (_extract_tier_and_reasoning transcript).1 = "Flagship".
Proof.
  intros Hk Hd Hf Hbefore Hafter. unfold _extract_tier_and_reasoning.
  apply (scan_flagship _ k line); [done|done|by apply classify_flagship|done|].
  intros i l Hi Hl Hdl. apply classify_flagship. by apply (Hafter i l).
Qed.

Lemma flagship_decision_before_reasoning_witness :
  (_extract_tier_and_reasoning "RESEARCH SUMMARY:
Market leader.

Sponsor Decision:  flagship 
REASONING: Strong brand.").1 = "Flagship".
Proof.
  apply (flagship_decision_before_reasoning _ 3%nat "Sponsor Decision:  flagship ").
  - reflexivity.
  - reflexivity.
  - reflexivity.
  - intros i l Hi Hl.
    destruct i as [|[|[|i]]]; [| | |lia]; vm_compute in Hl; by injection Hl as <-.
  - intros i l Hi Hl.
    destruct i as [|[|[|[|[|i]]]]]; try lia; vm_compute in Hl; [|done].
    by injection Hl as <-.
Defined.

(** C1, as stated, fails: a "REASONING:" line above the decision line ends
    the scan before the decision line is read, and the extractor answers
    Rejected although the transcript has a Flagship decision line and no
    later decision marker. *)
Lemma flagship_decision_after_reasoning_missed :
  let transcript := "REASONING: Strong brand.
SPONSOR DECISION: Flagship" in
  let line := "SPONSOR DECISION: Flagship" in
  split newline transcript !! 1%nat = Some line
  ∧ has_decision_marker line = true
  ∧ contains "FLAGSHIP" (upper (last_item (split colon line))) = true
  ∧ (∀ i l, (1 < i)%nat → split newline transcript !! i = Some l →
            has_decision_marker l = false)
  ∧ (_extract_tier_and_reasoning transcript).1 = "Rejected"
  ∧ (_extract_tier_and_reasoning transcript).1 ≠ "Flagship".
Proof.
  cbv zeta. split_and!; try reflexivity; [|done].
  intros i l Hi Hl. destruct i as [|[|i]]; [lia|lia|]. vm_compute in Hl. done.
Qed.

(** C8, as the code has it.  When the first line that contains the marker
    "REASONING:" is followed by a line that is empty or all whitespace, the
    reasoning is the text after the first colon of that one line with its
    surrounding whitespace stripped; no continuation line is appended. *)
Theorem reasoning_stops_at_blank_line (transcript : string) (k : nat) (line blank : string) :
  split newline transcript !! k = Some line →
  has_reasoning_marker line = true →
  (∀ i l, (i < k)%nat → split newline transcript !! i = Some l →
          has_reasoning_marker l = false) →
  split newline transcript !! S k = Some blank →
  strip blank = "" →
  (_extract_tier_and_reasoning transcript).2
  = strip (last_item (split_once colon line)).
Proof.
  intros Hk Hr Hbefore Hnext Hblank. unfold _extract_tier_and_reasoning.
  by apply (scan_reasoning _ k line blank).
Qed.

Lemma reasoning_stops_at_blank_line_witness :
  (_extract_tier_and_reasoning "SPONSOR DECISION: Eligible
REASONING: Stable finances: no controversies found.

Further remarks.").2 = "Stable finances: no controversies found.".
Proof.
  apply (reasoning_stops_at_blank_line _ 1%nat
           "REASONING: Stable finances: no controversies found." "").
  - reflexivity.
  - reflexivity.
  - intros i l Hi Hl. destruct i as [|i]; [|lia]. vm_compute in Hl. by injection Hl as <-.
  - reflexivity.
  - reflexivity.
Defined.

(** C8, as stated, fails: a line that contains the marker "REASONING:" and
    is followed by a blank line is not read as the reasoning when an earlier
    line contains the marker too.  Here the third line is such a line; the
    scan stops at the first line, takes the third as a continuation line,
    and the reasoning is neither the text after the colon of the third line
    nor that text stripped. *)
Lemma later_reasoning_line_is_continuation :
  let transcript := "REASONING: a
b
REASONING: c

d" in
  let line := "REASONING: c" in
  split newline transcript !! 2%nat = Some line
  ∧ has_reasoning_marker line = true
  ∧ split newline transcript !! 3%nat = Some ""
  ∧ (_extract_tier_and_reasoning transcript).2 = "a b REASONING: c"
  ∧ (_extract_tier_and_reasoning transcript).2 ≠ last_item (split_once colon line)
  ∧ (_extract_tier_and_reasoning transcript).2
    ≠ strip (last_item (split_once colon line)).
Proof. cbv zeta. split_and!; try reflexivity; done. Qed.

(** * The sheet gateway *)

Section GatewayFacts.

Variable numericise : string → cell.

Implicit Types (record : sheet_record) (ws : Worksheet).

Lemma dict_get_row_index record (v d : cell) (key : string) :
  key ≠ "_row_index" →
  dict_get (<["_row_index" := v]> record) key d = dict_get record key d.
Proof. intros Hne. unfold dict_get. by rewrite lookup_insert_ne. Qed.

Lemma row_locator_insert record (z : Z) :
  row_locator (<["_row_index" := CInt z]> record) = Some z.
Proof. unfold row_locator. by rewrite lookup_insert_eq. Qed.

Lemma increasing_locators_weaken (lo lo' : Z) (us : list sheet_record) :
  lo' ≤ lo → increasing_locators lo us → increasing_locators lo' us.
Proof.
  intros Hle. destruct us as [|u us]; [done|].
  intros (L & HL & Hlo & Hrest). exists L. split_and!; [done|lia|done].
Qed.

Lemma increasing_locators_elem (lo : Z) (us : list sheet_record) (u : sheet_record) :
  increasing_locators lo us → u ∈ us → ∃ L, row_locator u = Some L ∧ lo ≤ L.
Proof.
  revert lo. induction us as [|u0 us IH]; intros lo Hinc Hu.
  - by apply elem_of_nil in Hu.
  - destruct Hinc as (L & HL & Hlo & Hrest).
    apply elem_of_cons in Hu as [->|Hu]; [by exists L|].
    destruct (IH _ Hrest Hu) as (L' & HL' & Hlo'). exists L'. split; [done|lia].
Qed.

Lemma increasing_locators_take (lo : Z) (n : nat) (us : list sheet_record) :
  increasing_locators lo us → increasing_locators lo (take n us).
Proof.
  revert lo n. induction us as [|u us IH]; intros lo n Hinc; [by destruct n|].
  destruct n as [|n]; [done|]. destruct Hinc as (L & HL & Hlo & Hrest).
  exists L. split_and!; [done|done|by apply IH].
Qed.

(** What [get_unprocessed_records] returns, record by record. *)
Lemma unprocessed_from_spec (i : Z) (all_records us : list sheet_record) :
  unprocessed_from i all_records = Ok us →
  Forall blank_results us ∧ increasing_locators (i + 2) us.
Proof.
  revert i us. induction all_records as [|record rest IH]; intros i us H; simpl in H.
  - injection H as <-. by split.
  - destruct (dict_get record "Research Notes" (CStr "")) as [a| |] eqn:Ea;
      simpl in H; [|done|done].
    destruct (dict_get record "Decision" (CStr "")) as [b| |] eqn:Eb;
      simpl in H; [|done|done].
    destruct (unprocessed_from (i + 1) rest) as [us'|] eqn:Erest; [|done].
    destruct (IH _ _ Erest) as [Hblank Hinc].
    destruct (String.eqb (strip a) "" && String.eqb (strip b) "") eqn:Etest;
      injection H as <-.
    + apply andb_true_iff in Etest as [Ha Hb].
      apply String.eqb_eq in Ha. apply String.eqb_eq in Hb. split.
      * constructor; [|done]. exists a, b.
        rewrite !dict_get_row_index by done. done.
      * exists (i + 2). rewrite row_locator_insert. split_and!; [done|lia|].
        apply (increasing_locators_weaken (i + 1 + 2)); [lia|done].
    + split; [done|]. apply (increasing_locators_weaken (i + 1 + 2)); [lia|done].
Qed.

End GatewayFacts.

(** C7, as the code has it.  Every record [get_unprocessed_records] returns
    has under "Research Notes" and under "Decision" a text that is empty
    once its surrounding whitespace is stripped (an absent key counts as the
    empty text); a record with anything else in "Decision" is never
    returned. *)
Theorem unprocessed_records_have_blank_results
    (numericise : string → cell) (ws : Worksheet)
    (us : list sheet_record) (record : sheet_record) :
  get_unprocessed_records numericise ws = Ok us →
  record ∈ us →
  blank_results record.
Proof.
  intros H Hr. unfold get_unprocessed_records in H.
  destruct (unprocessed_from_spec _ _ _ H) as [Hblank _].
  by apply (proj1 (Forall_forall _ _) Hblank).
Qed.

Lemma unprocessed_records_have_blank_results_witness :
  blank_results space_decision_record.
Proof.
  apply (unprocessed_records_have_blank_results numericise_digits
           sheet_with_space_decision [space_decision_record]).
  - vm_cast_no_check (eq_refl (Ok [space_decision_record])).
  - apply list_elem_of_here.
Defined.

(** C7, as stated, fails: a "Decision" cell that holds a single space is a
    non-empty string, and the record is returned all the same, because the
    code compares the stripped text with the empty string. *)
Lemma unprocessed_record_with_space_decision :
  get_unprocessed_records numericise_digits sheet_with_space_decision
  = Ok [space_decision_record]
  ∧ dict_get space_decision_record "Decision" (CStr "") = CStr " "
  ∧ dict_get space_decision_record "Decision" (CStr "") ≠ CStr "".
Proof.
  split; [vm_cast_no_check (eq_refl (Ok [space_decision_record]))|].
  assert (dict_get space_decision_record "Decision" (CStr "") = CStr " ") as E
    by (vm_compute; reflexivity).
  split; [done|]. rewrite E. discriminate.
Qed.



(** * The worksheet grid *)

Section WorksheetFacts.

Implicit Types (ws : Worksheet) (row headers : list string).

Lemma truthy_false (s : string) : truthy s = false → s = "".
Proof. by destruct s. Qed.

Lemma index_of_Some (x : string) (xs : list string) (k : nat) :
  index_of x xs = Some k → xs !! k = Some x.
Proof.
  revert k. induction xs as [|y ys IH]; intros k H; simpl in H; [done|].
  destruct (String.eqb y x) eqn:E.
  - injection H as <-. apply String.eqb_eq in E. by subst.
  - destruct (index_of x ys) as [j|]; [|done]. injection H as <-. by apply IH.
Qed.

Lemma index_of_None (x : string) (xs : list string) :
  index_of x xs = None → x ∉ xs.
Proof.
  induction xs as [|y ys IH]; intros H; simpl in H; [apply not_elem_of_nil|].
  destruct (String.eqb y x) eqn:E; [done|].
  apply String.eqb_neq in E.
  destruct (index_of x ys); [done|].
  intros Hin. apply elem_of_cons in Hin as [->|Hin]; [done|]. by apply IH.
Qed.

Lemma index_of_elem (x : string) (xs : list string) :
  x ∈ xs → ∃ k, index_of x xs = Some k.
Proof.
  intros Hin. destruct (index_of x xs) as [k|] eqn:E; [by exists k|].
  by apply index_of_None in E.
Qed.

Lemma hd_nth0 ws : nth 0 ws [] = hd [] ws.
Proof. by destruct ws. Qed.

Lemma set_at_0 {A} (d x : A) (l : list A) : set_at d 0 x l = x :: tl l.
Proof. by destruct l. Qed.
Arguments set_at_0 {A} d x l.

Lemma set_at_app_length {A} (d x : A) (H r : list A) :
  set_at d (length H) x (H ++ r) = H ++ x :: tl r.
Proof. induction H as [|h H IH]; simpl; [apply (set_at_0 d)|by rewrite IH]. Qed.

Lemma nth_set_at {A} (d x : A) (i j : nat) (l : list A) :
  nth j (set_at d i x l) d = if decide (j = i) then x else nth j l d.
Proof.
  revert j l. induction i as [|i IH]; intros j l.
  - rewrite (set_at_0 d). destruct j as [|j]; [done|]. destruct l; [by destruct j|done].
  - destruct l as [|h t]; simpl.
    + destruct j as [|j]; [done|]. rewrite IH.
      repeat case_decide; try done; try lia. by destruct j.
    + destruct j as [|j]; [done|]. rewrite IH. repeat case_decide; try done; lia.
Qed.

(** Writing a header cell: only row 1 changes. *)
Lemma ws_update_cell_header ws (n : nat) (v : string) :
  ws_update_cell ws 1 (Z.of_nat n + 1) v
  = Some (set_at "" n v (hd [] ws) :: tl ws).
Proof.
  unfold ws_update_cell.
  assert ((1 <? 1) || (Z.of_nat n + 1 <? 1) = false) as ->.
  { apply orb_false_iff. split; apply Z.ltb_ge; lia. }
  replace (Z.to_nat (1 - 1)) with 0%nat by lia.
  replace (Z.to_nat (Z.of_nat n + 1 - 1)) with n by lia.
  by rewrite (set_at_0 []), hd_nth0.
Qed.

(** A row is its trimmed part followed by empty cells. *)
Lemma trim_row_decompose row :
  ∃ k, row = trim_row row ++ replicate k "".
Proof.
  induction row as [|c r [k IH]]; [by exists 0%nat|].
  simpl. destruct (trim_row r) as [|c' r'] eqn:E.
  - destruct (truthy c) eqn:Ec.
    + exists k. simpl. by rewrite IH at 1.
    + exists (S k). apply truthy_false in Ec as ->. simpl. by rewrite IH at 1.
  - exists k. simpl. by rewrite IH at 1.
Qed.

(** After the loop every required column is in the header row. *)
Lemma add_columns_present (required : list string) headers ws (r : list string) :
  hd [] ws = headers ++ r →
  ∃ F r', hd [] (add_columns headers ws required).1 = F ++ r'
          ∧ (∀ c, c ∈ headers → c ∈ F)
          ∧ (∀ c, c ∈ required → c ∈ F)
          ∧ (add_columns headers ws required).2 = true.
Proof.
  revert headers ws r.
  induction required as [|column rest IH]; intros headers ws r Hhd; simpl.
  - exists headers, r. split_and!; [done|done| |done].
    intros c Hc. by apply elem_of_nil in Hc.
  - destruct (index_of column headers) as [k|] eqn:E.
    + destruct (IH headers ws r Hhd) as (F & r' & H1 & H2 & H3 & H4).
      exists F, r'. split_and!; [done|done| |done].
      intros c Hc. apply elem_of_cons in Hc as [->|Hc]; [|by apply H3].
      apply H2. apply index_of_Some in E. by eapply list_elem_of_lookup_2.
    + rewrite ws_update_cell_header.
      destruct (IH (headers ++ [column])
                   (set_at "" (length headers) column (hd [] ws) :: tl ws) (tl r))
        as (F & r' & H1 & H2 & H3 & H4).
      { simpl. rewrite Hhd, set_at_app_length. by rewrite <- app_assoc. }
      exists F, r'. split_and!; [done| | |done].
      * intros c Hc. apply H2. apply elem_of_app. by left.
      * intros c Hc. apply elem_of_cons in Hc as [->|Hc]; [|by apply H3].
        apply H2. apply elem_of_app. right. apply list_elem_of_here.
Qed.

(** The loop writes nothing when every required column is among the
    local headers, or is the empty name and sits right after them. *)
Lemma add_columns_noop (required : list string) headers ws :
  (∀ c, c ∈ required →
        c ∈ headers ∨ (c = "" ∧ ∃ r' rows, ws = (headers ++ "" :: r') :: rows)) →
  add_columns headers ws required = (ws, true).
Proof.
  revert headers. induction required as [|column rest IH]; intros headers H; [done|].
  simpl. destruct (index_of column headers) as [k|] eqn:E.
  - apply IH. intros c Hc. apply H. by apply list_elem_of_further.
  - apply index_of_None in E.
    destruct (H column) as [Hin|(-> & r' & rows & ->)];
      [apply list_elem_of_here|done|].
    rewrite ws_update_cell_header. simpl. rewrite set_at_app_length. simpl.
    rewrite IH; [done|].
    intros c Hc. left. apply elem_of_app.
    destruct (H c) as [Hin|(-> & _)]; [by apply list_elem_of_further|by left|].
    right. apply list_elem_of_here.
Qed.

End WorksheetFacts.

(** C9. [add_columns_if_missing] is idempotent: on the sheet a first
    application leaves, a second application with the same names succeeds
    and leaves the sheet, and so its header row, as it is; no column that is
    present is appended again. *)
Theorem add_columns_if_missing_idempotent (ws : Worksheet) (names : list string) :
  let ws1 := (add_columns_if_missing ws names).1 in
  add_columns_if_missing ws1 names = (ws1, true)
  ∧ ws_header_values (add_columns_if_missing ws1 names).1 = ws_header_values ws1.
Proof.
  cbv zeta.
  set (ws1 := (add_columns_if_missing ws names).1).
  assert (add_columns_if_missing ws1 names = (ws1, true)) as E; [|by rewrite E].
  unfold add_columns_if_missing at 1. apply add_columns_noop.
  intros c Hc. unfold ws_header_values.
  destruct (trim_row_decompose (hd [] ws)) as [k0 Hk0].
  destruct (add_columns_present names _ ws _ Hk0) as (F & r' & H1 & _ & H3 & _).
  fold (ws_header_values ws) in H1. fold (add_columns_if_missing ws names) in H1.
  fold ws1 in H1.
  assert (c ∈ hd [] ws1) as Hin.
  { rewrite H1. apply elem_of_app. left. by apply H3. }
  destruct (trim_row_decompose (hd [] ws1)) as [k Hk].
  rewrite Hk in Hin. apply elem_of_app in Hin as [Hin|Hin]; [by left|].
  right. apply elem_of_replicate in Hin as [-> Hk']. split; [done|].
  destruct k as [|k]; [done|]. simpl in Hk.
  destruct ws1 as [|h rows]; simpl in Hk.
  - by destruct (trim_row []).
  - exists (replicate k ""), rows. simpl. by f_equal.
Qed.

(** * Writing results back *)

Section UpdateFacts.

Implicit Types (ws : Worksheet) (headers : list string).

Lemma ws_update_cell_ok ws (row col : Z) (v : string) :
  1 ≤ row → 1 ≤ col →
  ws_update_cell ws row col v
  = Some (set_at [] (Z.to_nat (row - 1))
            (set_at "" (Z.to_nat (col - 1)) v (sheet_row ws row)) ws).
Proof.
  intros Hr Hc. unfold ws_update_cell.
  assert ((row <? 1) || (col <? 1) = false) as ->; [|done].
  apply orb_false_iff. split; apply Z.ltb_ge; lia.
Qed.

Lemma ws_update_cell_fails ws (row col : Z) (v : string) :
  ws_update_cell ws row col v = None → row < 1 ∨ col < 1.
Proof.
  unfold ws_update_cell. destruct ((row <? 1) || (col <? 1)) eqn:E; [|done].
  intros _. apply orb_true_iff in E as [E|E]; apply Z.ltb_lt in E; lia.
Qed.

Lemma sheet_row_update ws ws' (row col p : Z) (v : string) :
  ws_update_cell ws row col v = Some ws' → 1 ≤ p →
  sheet_row ws' p
  = if decide (p = row) then set_at "" (Z.to_nat (col - 1)) v (sheet_row ws row)
    else sheet_row ws p.
Proof.
  intros H Hp. unfold ws_update_cell in H.
  destruct ((row <? 1) || (col <? 1)) eqn:E; [done|]. injection H as <-.
  apply orb_false_iff in E as [E _]. apply Z.ltb_ge in E.
  unfold sheet_row. rewrite nth_set_at.
  repeat case_decide; try done; lia.
Qed.

Lemma cell_text_update ws ws' (row col r c : Z) (v : string) :
  ws_update_cell ws row col v = Some ws' → 1 ≤ r → 1 ≤ c →
  cell_text ws' r c
  = if decide (r = row ∧ c = col) then v else cell_text ws r c.
Proof.
  intros H Hr Hc.
  assert (1 ≤ col) as Hcol.
  { unfold ws_update_cell in H.
    destruct ((row <? 1) || (col <? 1)) eqn:E; [done|].
    apply orb_false_iff in E as [_ E]. apply Z.ltb_ge in E. lia. }
  change (nth (Z.to_nat (c - 1)) (sheet_row ws' r) ""
          = if decide (r = row ∧ c = col) then v
            else nth (Z.to_nat (c - 1)) (sheet_row ws r) "").
  rewrite (sheet_row_update _ _ _ _ _ _ H Hr).
  destruct (decide (r = row)) as [->|Hne].
  - rewrite nth_set_at. repeat case_decide; try done; try lia.
    all: destruct_and?; try done; try lia.
  - case_decide; [by destruct_and?|done].
Qed.

Lemma header_values_update ws ws' (row col : Z) (v : string) :
  ws_update_cell ws row col v = Some ws' → 2 ≤ row →
  ws_header_values ws' = ws_header_values ws.
Proof.
  intros H Hrow. unfold ws_header_values. rewrite <- !hd_nth0.
  change (trim_row (sheet_row ws' 1) = trim_row (sheet_row ws 1)).
  rewrite (sheet_row_update _ _ _ _ _ _ H); [|lia].
  case_decide; [lia|done].
Qed.

(** [update_record] touches one row only. *)
Lemma update_fields_other_row headers ws (row_index p : Z)
    (updates : list (string * cell)) :
  1 ≤ p → p ≠ row_index →
  sheet_row (update_fields headers ws row_index updates).1 p = sheet_row ws p.
Proof.
  intros Hp Hne. revert ws.
  induction updates as [|[field value] rest IH]; intros ws; simpl; [done|].
  destruct (index_of field headers) as [k|]; [|apply IH].
  destruct (ws_update_cell ws row_index (Z.of_nat k + 1) (py_str value))
    as [ws'|] eqn:E; [|done].
  rewrite IH, (sheet_row_update _ _ _ _ _ _ E Hp). by case_decide.
Qed.

Lemma update_fields_header headers ws (row_index : Z)
    (updates : list (string * cell)) :
  2 ≤ row_index →
  ws_header_values (update_fields headers ws row_index updates).1
  = ws_header_values ws.
Proof.
  intros Hrow. revert ws.
  induction updates as [|[field value] rest IH]; intros ws; simpl; [done|].
  destruct (index_of field headers) as [k|]; [|apply IH].
  destruct (ws_update_cell ws row_index (Z.of_nat k + 1) (py_str value))
    as [ws'|] eqn:E; [|done].
  by rewrite IH, (header_values_update _ _ _ _ _ E Hrow).
Qed.

Lemma update_fields_success headers ws (row_index : Z)
    (updates : list (string * cell)) :
  1 ≤ row_index →
  (update_fields headers ws row_index updates).2 = true.
Proof.
  intros Hrow. revert ws.
  induction updates as [|[field value] rest IH]; intros ws; simpl; [done|].
  destruct (index_of field headers) as [k|]; [|apply IH].
  destruct (ws_update_cell ws row_index (Z.of_nat k + 1) (py_str value))
    as [ws'|] eqn:E; [apply IH|].
  apply ws_update_cell_fails in E. lia.
Qed.

(** The two cells [update_record] writes for a graded record. *)
Lemma update_record_cells ws (row_index : Z) (research_notes decision : string) :
  1 ≤ row_index →
  let ws' := (update_record ws row_index
                [("Research Notes", CStr research_notes);
                 ("Decision", CStr decision)]).1 in
  (∀ k, index_of "Research Notes" (ws_header_values ws) = Some k →
        cell_text ws' row_index (Z.of_nat k + 1) = research_notes)
  ∧ (∀ k, index_of "Decision" (ws_header_values ws) = Some k →
          cell_text ws' row_index (Z.of_nat k + 1) = decision).
Proof.
  intros Hrow. cbv zeta. unfold update_record. simpl.
  destruct (index_of "Research Notes" (ws_header_values ws)) as [k1|] eqn:E1;
    destruct (index_of "Decision" (ws_header_values ws)) as [k2|] eqn:E2.
  - destruct (ws_update_cell ws row_index (Z.of_nat k1 + 1) research_notes)
      as [ws1|] eqn:W1; [|apply ws_update_cell_fails in W1; lia].
    destruct (ws_update_cell ws1 row_index (Z.of_nat k2 + 1) decision)
      as [ws2|] eqn:W2; [|apply ws_update_cell_fails in W2; lia].
    simpl. split; intros k [= <-].
    + rewrite (cell_text_update _ _ _ _ _ _ _ W2) by lia.
      case_decide as Hd.
      * destruct Hd as [_ Hd]. assert (k1 = k2) as -> by lia.
        apply index_of_Some in E1. apply index_of_Some in E2. congruence.
      * rewrite (cell_text_update _ _ _ _ _ _ _ W1) by lia.
        case_decide as Hd'; [done|]. exfalso. by apply Hd'.
    + rewrite (cell_text_update _ _ _ _ _ _ _ W2) by lia.
      case_decide as Hd; [done|]. exfalso. by apply Hd.
  - destruct (ws_update_cell ws row_index (Z.of_nat k1 + 1) research_notes)
      as [ws1|] eqn:W1; [|apply ws_update_cell_fails in W1; lia].
    simpl. split; [|done]. intros k [= <-].
    rewrite (cell_text_update _ _ _ _ _ _ _ W1) by lia.
    case_decide as Hd'; [done|]. exfalso. by apply Hd'.
  - destruct (ws_update_cell ws row_index (Z.of_nat k2 + 1) decision)
      as [ws2|] eqn:W2; [|apply ws_update_cell_fails in W2; lia].
    simpl. split; [done|]. intros k [= <-].
    rewrite (cell_text_update _ _ _ _ _ _ _ W2) by lia.
    case_decide as Hd'; [done|]. exfalso. by apply Hd'.
  - by split.
Qed.

End UpdateFacts.

(** * The grading pipeline *)

Section PipelineFacts.

Variable numericise : string → cell.
Variable client : string → string + string.

Implicit Types (ws : Worksheet) (records us : list sheet_record).

Local Abbreviation rg := (research_and_grade_company client).

Local Arguments research_and_grade_company : simpl never.
Local Arguments update_record : simpl never.

Lemma row_locator_inv (record : sheet_record) (L : Z) :
  row_locator record = Some L → record !! "_row_index" = Some (CInt L).
Proof.
  unfold row_locator. destruct (record !! "_row_index") as [[| |]|]; congruence.
Qed.

Lemma research_failure_result (record : sheet_record) (e : string) :
  client (prompt_for record) = inr e →
  rg record = ("Research failed: " +:+ e, technical_error_decision).
Proof.
  intros H. unfold research_and_grade_company.
  change (_build_research_prompt _ _ _) with (prompt_for record). by rewrite H.
Qed.

(** With locators that increase from 1 or above the loop handles every
    record, in order, and every [update_record] reports success. *)
Lemma process_records_graded records (lo : Z) ws (handled : list graded) :
  1 ≤ lo → increasing_locators lo records →
  run_error (process_records client ws handled records) = None
  ∧ run_graded (process_records client ws handled records)
    = handled ++ map (graded_entry client) records.
Proof.
  revert lo ws handled.
  induction records as [|record rest IH]; intros lo ws handled Hlo Hinc.
  - simpl. by rewrite app_nil_r.
  - destruct Hinc as (L & HL & HloL & Hrest). simpl.
    destruct (rg record) as [notes decision] eqn:Erg.
    rewrite (row_locator_inv _ _ HL).
    destruct (update_record ws L _) as [ws' success] eqn:Eup.
    assert (success = true) as ->.
    { change success with (ws', success).2. rewrite <- Eup.
      apply update_fields_success. lia. }
    destruct (IH (L + 1) ws' (handled ++ [Graded record notes decision true]))
      as [H1 H2]; [lia|done|].
    split; [done|]. rewrite H2, <- app_assoc. simpl.
    unfold graded_entry at 2. by rewrite Erg.
Qed.

(** The loop only writes rows that are the locator of a record. *)
Lemma process_records_other_rows records ws (handled : list graded) (p : Z) :
  1 ≤ p →
  (∀ u, u ∈ records → row_locator u ≠ Some p) →
  sheet_row (run_sheet (process_records client ws handled records)) p
  = sheet_row ws p.
Proof.
  intros Hp. revert ws handled.
  induction records as [|record rest IH]; intros ws handled H; [done|].
  simpl. destruct (rg record) as [notes decision].
  destruct (record !! "_row_index") as [[|L|]|] eqn:El; [done| |done|done].
  destruct (update_record ws L _) as [ws' success] eqn:Eup.
  rewrite IH; [|intros u Hu; apply H; by apply list_elem_of_further].
  change ws' with (ws', success).1. rewrite <- Eup.
  apply update_fields_other_row; [done|].
  intros ->. apply (H record); [apply list_elem_of_here|].
  unfold row_locator. by rewrite El.
Qed.

Lemma process_records_header records (lo : Z) ws (handled : list graded) :
  2 ≤ lo → increasing_locators lo records →
  ws_header_values (run_sheet (process_records client ws handled records))
  = ws_header_values ws.
Proof.
  revert lo ws handled.
  induction records as [|record rest IH]; intros lo ws handled Hlo Hinc; [done|].
  destruct Hinc as (L & HL & HloL & Hrest). simpl.
  destruct (rg record) as [notes decision].
  rewrite (row_locator_inv _ _ HL).
  destruct (update_record ws L _) as [ws' success] eqn:Eup.
  rewrite (IH (L + 1)); [|lia|done].
  change ws' with (ws', success).1. rewrite <- Eup.
  apply update_fields_header. lia.
Qed.

(** After the loop the two result cells of every handled record hold what
    the record was graded with, in the row its locator names. *)
Lemma process_records_cells records (lo : Z) ws (handled : list graded)
    (u : sheet_record) (L : Z) :
  2 ≤ lo → increasing_locators lo records →
  u ∈ records → row_locator u = Some L →
  let final := run_sheet (process_records client ws handled records) in
  (∀ k, index_of "Research Notes" (ws_header_values ws) = Some k →
        cell_text final L (Z.of_nat k + 1) = (rg u).1)
  ∧ (∀ k, index_of "Decision" (ws_header_values ws) = Some k →
          cell_text final L (Z.of_nat k + 1) = (rg u).2).
Proof.
  cbv zeta. revert lo ws handled.
  induction records as [|record rest IH]; intros lo ws handled Hlo Hinc Hu HL.
  - by apply elem_of_nil in Hu.
  - destruct Hinc as (L0 & HL0 & HloL & Hrest).
    assert (u = record ∨ (u ≠ record ∧ u ∈ rest)) as [->|[Hne Hin]].
    { apply elem_of_cons in Hu as [->|Hu]; [by left|].
      destruct (decide (u = record)) as [->|]; [by left|by right]. }
    + assert (L0 = L) as -> by congruence.
      simpl. destruct (rg record) as [notes decision] eqn:Erg.
      rewrite (row_locator_inv _ _ HL).
      destruct (update_record ws L _) as [ws' success] eqn:Eup.
      assert (sheet_row (run_sheet (process_records client ws'
                 (handled ++ [Graded record notes decision success]) rest)) L
              = sheet_row ws' L) as Hrow.
      { apply process_records_other_rows; [lia|].
        intros u Hu' Hloc.
        destruct (increasing_locators_elem _ _ _ Hrest Hu') as (L' & HL' & Hgt).
        assert (L' = L) by congruence. lia. }
      unfold cell_text. fold (sheet_row (run_sheet (process_records client ws'
                 (handled ++ [Graded record notes decision success]) rest)) L).
      rewrite Hrow.
      pose proof (update_record_cells ws L notes decision ltac:(lia)) as Hcells.
      cbv zeta in Hcells. rewrite Eup in Hcells. exact Hcells.
    + simpl. destruct (rg record) as [notes decision] eqn:Erg.
      rewrite (row_locator_inv _ _ HL0).
      destruct (update_record ws L0 _) as [ws' success] eqn:Eup.
      assert (ws_header_values ws' = ws_header_values ws) as Hhdr.
      { change ws' with (ws', success).1. rewrite <- Eup.
        apply update_fields_header. lia. }
      rewrite <- Hhdr. apply (IH (L0 + 1)); [lia|done|done|done].
Qed.

End PipelineFacts.

(** * Where the unprocessed records live in the sheet *)

Section RowFacts.

Implicit Types (raw us : list sheet_record).

Lemma unprocessed_rows_from_bound (row : Z) raw (p : Z) :
  p ∈ unprocessed_rows_from row raw → row ≤ p.
Proof.
  revert row. induction raw as [|r raw IH]; intros row H; simpl in H.
  - by apply elem_of_nil in H.
  - destruct (is_valid_record r && is_unprocessed r).
    + apply elem_of_cons in H as [->|H]; [lia|]. apply IH in H. lia.
    + apply IH in H. lia.
Qed.

(** The returned records line up with the sheet rows of the unprocessed
    records, and the locator of a returned record lies below the sheet row
    of every unprocessed record after it. *)
Lemma locators_below_later_rows raw (i row : Z) us :
  i + 2 ≤ row →
  unprocessed_from i (valid_records raw) = Ok us →
  length us = length (unprocessed_rows_from row raw)
  ∧ ∀ (n : nat) u p,
      u ∈ take n us → p ∈ drop n (unprocessed_rows_from row raw) →
      ∃ L, row_locator u = Some L ∧ L < p.
Proof.
  revert i row us. induction raw as [|r raw IH]; intros i row us Hle H.
  - simpl in H. injection H as <-. split; [done|].
    intros n u p Hu. rewrite take_nil in Hu. by apply elem_of_nil in Hu.
  - unfold valid_records in H. simpl in H. simpl.
    destruct (is_valid_record r) eqn:Ev; simpl.
    + simpl in H. unfold is_unprocessed.
      destruct (cell_strip (dict_get r "Research Notes" (CStr ""))) as [a|];
        [|done].
      destruct (cell_strip (dict_get r "Decision" (CStr ""))) as [b|]; [|done].
      destruct (unprocessed_from (i + 1) (List.filter is_valid_record raw))
        as [us'|] eqn:Erest; [|done].
      destruct (IH (i + 1) (row + 1) us') as [Hlen Hcross]; [lia|done|].
      destruct (String.eqb a "" && String.eqb b ""); injection H as <-.
      * split; [simpl; by rewrite Hlen|].
        intros [|n] u p Hu Hp; [by apply elem_of_nil in Hu|].
        simpl in Hu, Hp. apply elem_of_cons in Hu as [->|Hu].
        -- exists (i + 2). rewrite row_locator_insert. split; [done|].
           apply subseteq_drop, unprocessed_rows_from_bound in Hp. lia.
        -- by apply (Hcross n).
      * by split.
    + by apply (IH i (row + 1)); [lia|].
Qed.

End RowFacts.

(** * Runs of the pipeline *)

Section RunFacts.

Variable numericise : string → cell.
Variable client : string → string + string.

Implicit Types (ws : Worksheet) (us : list sheet_record).

Lemma limit_records_nil {A} (max_records : option Z) :
  limit_records max_records (@nil A) = [].
Proof.
  destruct max_records as [n|]; [|done]. simpl.
  destruct (n =? 0); [done|]. unfold py_slice_to.
  destruct (0 <=? n); apply take_nil.
Qed.

Lemma limit_records_take {A} (max_records : option Z) (xs : list A) :
  ∃ m, limit_records max_records xs = take m xs.
Proof.
  destruct max_records as [n|]; simpl.
  - destruct (n =? 0).
    + exists (length xs). by rewrite firstn_all.
    + unfold py_slice_to. destruct (0 <=? n); eauto.
  - exists (length xs). by rewrite firstn_all.
Qed.

Lemma limit_records_positive {A} (n : Z) (xs : list A) :
  0 < n → limit_records (Some n) xs = take (Z.to_nat n) xs.
Proof.
  intros Hn. simpl. destruct (n =? 0) eqn:E; [apply Z.eqb_eq in E; lia|].
  unfold py_slice_to. destruct (0 <=? n) eqn:E'; [done|].
  apply Z.leb_gt in E'. lia.
Qed.

(** Once [get_unprocessed_records] has returned, the run is the loop over
    the limited list. *)
Lemma process_unprocessed_records_loop ws (max_records : option Z) us :
  get_unprocessed_records numericise ws = Ok us →
  process_unprocessed_records numericise client ws max_records
  = process_records client ws [] (limit_records max_records us).
Proof.
  intros H. unfold process_unprocessed_records. rewrite H.
  destruct us as [|u us]; [by rewrite limit_records_nil|done].
Qed.

Lemma limited_locators ws (max_records : option Z) us :
  get_unprocessed_records numericise ws = Ok us →
  increasing_locators 2 (limit_records max_records us).
Proof.
  intros H. destruct (unprocessed_from_spec _ _ _ H) as [_ Hinc].
  destruct (limit_records_take max_records us) as [m ->].
  by apply increasing_locators_take.
Qed.

End RunFacts.

(** After a run, the two result cells of every record of the batch hold
    what the record was graded with, in the row its locator names. *)
Lemma batch_cells_written
    (numericise : string → cell) (client : string → string + string)
    (ws : Worksheet) (max_records : option Z)
    (us : list sheet_record) (u : sheet_record) :
  get_unprocessed_records numericise ws = Ok us →
  u ∈ limit_records max_records us →
  ∃ L, row_locator u = Some L ∧ 2 ≤ L
    ∧ (∀ k, index_of "Research Notes" (ws_header_values ws) = Some k →
            cell_text (run_sheet (process_unprocessed_records numericise client ws
                                    max_records)) L (Z.of_nat k + 1)
            = (research_and_grade_company client u).1)
    ∧ (∀ k, index_of "Decision" (ws_header_values ws) = Some k →
            cell_text (run_sheet (process_unprocessed_records numericise client ws
                                    max_records)) L (Z.of_nat k + 1)
            = (research_and_grade_company client u).2).
Proof.
  intros Hget Hin.
  pose proof (limited_locators numericise ws max_records us Hget) as Hinc.
  destruct (increasing_locators_elem _ _ _ Hinc Hin) as (L & HL & HloL).
  exists L. split; [done|]. split; [done|].
  rewrite (process_unprocessed_records_loop _ _ _ _ _ Hget).
  exact (process_records_cells client _ 2 ws [] u L ltac:(lia) Hinc Hin HL).
Qed.

(** C3. When the research call for a record of the batch fails with error
    text [e], the record is graded with the notes "Research failed: " + [e]
    and the decision "Rejected Sponsor: Unable to complete research due to
    technical error"; [update_record] is called with them at the record's
    locator and reports success, and after the run the "Research Notes" and
    "Decision" cells of that row (for the columns the header has) hold
    exactly these texts.  The run is not aborted: it ends without an error
    and has handled every record of the batch, in order. *)
Theorem research_failure_is_recorded
    (numericise : string → cell) (client : string → string + string)
    (ws : Worksheet) (max_records : option Z)
    (us : list sheet_record) (record : sheet_record) (e : string) (L : Z) :
  get_unprocessed_records numericise ws = Ok us →
  record ∈ limit_records max_records us →
  row_locator record = Some L →
  client (prompt_for record) = inr e →
  let r := process_unprocessed_records numericise client ws max_records in
  research_and_grade_company client record
  = ("Research failed: " +:+ e, technical_error_decision)
  ∧ contains e (research_and_grade_company client record).1 = true
  ∧ Graded record ("Research failed: " +:+ e) technical_error_decision true
    ∈ run_graded r
  ∧ (∀ k, index_of "Research Notes" (ws_header_values ws) = Some k →
          cell_text (run_sheet r) L (Z.of_nat k + 1) = "Research failed: " +:+ e)
  ∧ (∀ k, index_of "Decision" (ws_header_values ws) = Some k →
          cell_text (run_sheet r) L (Z.of_nat k + 1) = technical_error_decision)
  ∧ run_error r = None
  ∧ map g_record (run_graded r) = limit_records max_records us.
Proof.
  intros Hget Hin HL He. cbv zeta.
  rewrite (process_unprocessed_records_loop _ _ _ _ _ Hget).
  pose proof (limited_locators numericise ws max_records us Hget) as Hinc.
  pose proof (research_failure_result client record e He) as Hrg.
  destruct (process_records_graded client _ 2 ws [] ltac:(lia) Hinc) as [Herr Hgr].
  destruct (process_records_cells client _ 2 ws [] record L ltac:(lia) Hinc Hin HL)
    as [Hnotes Hdec].
  rewrite Hrg in Hnotes, Hdec. simpl in Hnotes, Hdec.
  split_and!; [done| | |done|done|done|].
  - rewrite Hrg.
    change (contains e ("Research failed: " +:+ e) = true).
    rewrite <- (PyStrFacts.app_nil_r e) at 2. apply PyStrFacts.contains_app.
  - rewrite Hgr. simpl. apply list_elem_of_fmap.
    exists record. split; [|done]. unfold graded_entry. by rewrite Hrg.
  - rewrite Hgr. simpl. rewrite <- list_fmap_compose.
    by rewrite list_fmap_id.
Qed.

Lemma research_failure_is_recorded_witness :
  let r := process_unprocessed_records numericise_digits client_timeout
             sheet_five_unprocessed None in
  cell_text (run_sheet r) 2 3 = "Research failed: Request timed out."
  ∧ cell_text (run_sheet r) 2 4 = technical_error_decision
  ∧ run_error r = None
  ∧ length (run_graded r) = 5%nat.
Proof.
  cbv zeta.
  destruct (research_failure_is_recorded numericise_digits client_timeout
              sheet_five_unprocessed None five_unprocessed_records
              first_unprocessed_record "Request timed out." 2)
    as (_ & _ & _ & Hnotes & Hdec & Herr & Hrecs).
  - vm_cast_no_check (eq_refl (Ok five_unprocessed_records)).
  - apply (list_elem_of_lookup_2 _ 0%nat).
    vm_cast_no_check (eq_refl (Some first_unprocessed_record)).
  - vm_compute. reflexivity.
  - reflexivity.
  - split_and!.
    + apply (Hnotes 2%nat). vm_compute. reflexivity.
    + apply (Hdec 3%nat). vm_compute. reflexivity.
    + exact Herr.
    + apply (f_equal length) in Hrecs. rewrite List.length_map in Hrecs.
      rewrite Hrecs. vm_compute. reflexivity.
Defined.


(** C6. With [max_records = n > 0] and more than [n] unprocessed records,
    the run handles exactly the first [n] of them, in sheet order: each is
    graded by [research_and_grade_company] and written with a successful
    [update_record], and after the run the "Research Notes" and "Decision"
    cells of its locator row (for the columns the header has) hold its notes
    and its decision.  The sheet rows of the other unprocessed records are
    the same after the run as before it. *)
Theorem limit_processes_first_records
    (numericise : string → cell) (client : string → string + string)
    (ws : Worksheet) (n : Z) (us : list sheet_record) :
  0 < n →
  get_unprocessed_records numericise ws = Ok us →
  n < Z.of_nat (length us) →
  let r := process_unprocessed_records numericise client ws (Some n) in
  run_error r = None
  ∧ run_graded r = map (graded_entry client) (take (Z.to_nat n) us)
  ∧ map g_record (run_graded r) = take (Z.to_nat n) us
  ∧ length (run_graded r) = Z.to_nat n
  ∧ (∀ u, u ∈ take (Z.to_nat n) us →
       ∃ L, row_locator u = Some L ∧ 2 ≤ L
         ∧ (∀ k, index_of "Research Notes" (ws_header_values ws) = Some k →
                 cell_text (run_sheet r) L (Z.of_nat k + 1)
                 = (research_and_grade_company client u).1)
         ∧ (∀ k, index_of "Decision" (ws_header_values ws) = Some k →
                 cell_text (run_sheet r) L (Z.of_nat k + 1)
                 = (research_and_grade_company client u).2))
  ∧ length (unprocessed_rows numericise ws) = length us
  ∧ ∀ p, p ∈ drop (Z.to_nat n) (unprocessed_rows numericise ws) →
         sheet_row (run_sheet r) p = sheet_row ws p.
Proof.
  intros Hn Hget Hlen. cbv zeta.
  assert (∀ u, u ∈ take (Z.to_nat n) us →
       ∃ L, row_locator u = Some L ∧ 2 ≤ L
         ∧ (∀ k, index_of "Research Notes" (ws_header_values ws) = Some k →
                 cell_text (run_sheet (process_unprocessed_records numericise
                              client ws (Some n))) L (Z.of_nat k + 1)
                 = (research_and_grade_company client u).1)
         ∧ (∀ k, index_of "Decision" (ws_header_values ws) = Some k →
                 cell_text (run_sheet (process_unprocessed_records numericise
                              client ws (Some n))) L (Z.of_nat k + 1)
                 = (research_and_grade_company client u).2)) as Hcells.
  { intros u Hu. apply (batch_cells_written numericise client ws (Some n) us);
      [done|]. by rewrite limit_records_positive. }
  revert Hcells.
  rewrite (process_unprocessed_records_loop _ _ _ _ _ Hget). intros Hcells.
  pose proof (limited_locators numericise ws (Some n) us Hget) as Hinc.
  rewrite (limit_records_positive n us Hn) in *.
  destruct (process_records_graded client _ 2 ws [] ltac:(lia) Hinc) as [Herr Hgr].
  destruct (locators_below_later_rows (ws_get_all_records numericise ws) 0 2 us
              ltac:(lia) Hget) as [Hrows Hcross].
  split_and!; [done|done| | |done|done|].
  - rewrite Hgr. simpl. rewrite <- list_fmap_compose. by rewrite list_fmap_id.
  - rewrite Hgr. simpl. rewrite length_fmap, length_take. lia.
  - intros p Hp. apply process_records_other_rows.
    + apply subseteq_drop, unprocessed_rows_from_bound in Hp. lia.
    + intros u Hu Hloc.
      destruct (Hcross _ u p Hu Hp) as (L & HL & Hlt).
      assert (L = p) by congruence. lia.
Qed.

Lemma limit_processes_first_records_witness :
  let r := process_unprocessed_records numericise_digits client_timeout
             sheet_five_unprocessed (Some 2) in
  length (run_graded r) = 2%nat
  ∧ cell_text (run_sheet r) 2 3 = "Research failed: Request timed out."
  ∧ cell_text (run_sheet r) 2 4 = technical_error_decision
  ∧ unprocessed_rows numericise_digits sheet_five_unprocessed = [2; 3; 4; 5; 6]
  ∧ sheet_row (run_sheet r) 4 = ["t3"; "Cog"; ""; ""]
  ∧ sheet_row (run_sheet r) 5 = ["t4"; "Dyne"; ""; ""]
  ∧ sheet_row (run_sheet r) 6 = ["t5"; "Echo"; ""; ""].
Proof.
  cbv zeta.
  assert (unprocessed_rows numericise_digits sheet_five_unprocessed
          = [2; 3; 4; 5; 6]) as Erows by (vm_compute; reflexivity).
  destruct (limit_processes_first_records numericise_digits client_timeout
              sheet_five_unprocessed 2 five_unprocessed_records)
    as (_ & _ & _ & Hlen & Hcells & _ & Hrows).
  - lia.
  - vm_cast_no_check (eq_refl (Ok five_unprocessed_records)).
  - vm_compute. reflexivity.
  - destruct (Hcells first_unprocessed_record)
      as (L & HL & _ & Hnotes & Hdec).
    { apply (list_elem_of_lookup_2 _ 0%nat).
      vm_cast_no_check (eq_refl (Some first_unprocessed_record)). }
    assert (L = 2) as ->.
    { assert (row_locator first_unprocessed_record = Some 2) as HL2
        by (vm_compute; reflexivity).
      congruence. }
    rewrite Erows in Hrows. change (Z.to_nat 2) with 2%nat in Hrows.
    simpl in Hrows. split_and!.
    + exact Hlen.
    + apply (Hnotes 2%nat). vm_compute. reflexivity.
    + apply (Hdec 3%nat). vm_compute. reflexivity.
    + reflexivity.
    + rewrite (Hrows 4); [reflexivity|]. apply list_elem_of_here.
    + rewrite (Hrows 5); [reflexivity|].
      apply list_elem_of_further, list_elem_of_here.
    + rewrite (Hrows 6); [reflexivity|].
      do 2 apply list_elem_of_further. apply list_elem_of_here.
Defined.


(** C10. With [max_records = 0] the limit is not applied: the run is the
    run without a limit, and it processes every unprocessed record, in
    order, and ends without an error: each record is graded by
    [research_and_grade_company] and written with a successful
    [update_record], and after the run the "Research Notes" and "Decision"
    cells of its locator row (for the columns the header has) hold its notes
    and its decision. *)
Theorem zero_limit_processes_everything
    (numericise : string → cell) (client : string → string + string)
    (ws : Worksheet) :
  process_unprocessed_records numericise client ws (Some 0)
  = process_unprocessed_records numericise client ws None
  ∧ ∀ us, get_unprocessed_records numericise ws = Ok us →
          run_error (process_unprocessed_records numericise client ws (Some 0)) = None
          ∧ map g_record
              (run_graded (process_unprocessed_records numericise client ws (Some 0)))
            = us
          ∧ run_graded (process_unprocessed_records numericise client ws (Some 0))
            = map (graded_entry client) us
          ∧ ∀ u, u ∈ us →
              ∃ L, row_locator u = Some L ∧ 2 ≤ L
                ∧ (∀ k, index_of "Research Notes" (ws_header_values ws) = Some k →
                        cell_text (run_sheet (process_unprocessed_records numericise
                                     client ws (Some 0))) L (Z.of_nat k + 1)
                        = (research_and_grade_company client u).1)
                ∧ (∀ k, index_of "Decision" (ws_header_values ws) = Some k →
                        cell_text (run_sheet (process_unprocessed_records numericise
                                     client ws (Some 0))) L (Z.of_nat k + 1)
                        = (research_and_grade_company client u).2).
Proof.
  split; [done|]. intros us Hget.
  pose proof (batch_cells_written numericise client ws (Some 0) us) as Hcells.
  change (limit_records (Some 0) us) with us in Hcells.
  specialize (λ u, Hcells u Hget). revert Hcells.
  rewrite (process_unprocessed_records_loop _ _ _ _ _ Hget). intros Hcells.
  pose proof (limited_locators numericise ws (Some 0) us Hget) as Hinc.
  change (limit_records (Some 0) us) with us in *.
  destruct (process_records_graded client _ 2 ws [] ltac:(lia) Hinc) as [Herr Hgr].
  split_and!; [done| |done|done]. rewrite Hgr. simpl.
  rewrite <- list_fmap_compose. by rewrite list_fmap_id.
Qed.

Lemma zero_limit_processes_everything_witness :
  let r := process_unprocessed_records numericise_digits client_timeout
             sheet_five_unprocessed (Some 0) in
  length (run_graded r) = 5%nat
  ∧ cell_text (run_sheet r) 2 3 = "Research failed: Request timed out."
  ∧ cell_text (run_sheet r) 2 4 = technical_error_decision.
Proof.
  cbv zeta.
  destruct (zero_limit_processes_everything numericise_digits client_timeout
              sheet_five_unprocessed) as [_ H].
  destruct (H five_unprocessed_records) as (_ & Hrecs & _ & Hcells).
  - vm_cast_no_check (eq_refl (Ok five_unprocessed_records)).
  - destruct (Hcells first_unprocessed_record)
      as (L & HL & _ & Hnotes & Hdec).
    { apply (list_elem_of_lookup_2 _ 0%nat).
      vm_cast_no_check (eq_refl (Some first_unprocessed_record)). }
    assert (L = 2) as ->.
    { assert (row_locator first_unprocessed_record = Some 2) as HL2
        by (vm_compute; reflexivity).
      congruence. }
    split_and!.
    + apply (f_equal length) in Hrecs. rewrite List.length_map in Hrecs.
      rewrite Hrecs. vm_compute. reflexivity.
    + apply (Hnotes 2%nat). vm_compute. reflexivity.
    + apply (Hdec 3%nat). vm_compute. reflexivity.
Defined.

(** C4 fails on the code.  In [sheet_with_filtered_row] the record of Acme
    is in sheet row 3, below a row without a timestamp.  The locator it is
    returned with is 2, the position in the filtered list plus 2, and the
    run writes Acme's results into sheet row 2, the row that was filtered
    out, leaving row 3 as it was. *)
Theorem row_locator_counts_filtered_list :
  get_unprocessed_records numericise_digits sheet_with_filtered_row = Ok [acme_record]
  ∧ dict_get acme_record "Company Name" (CStr "") = CStr "Acme"
  ∧ sheet_row sheet_with_filtered_row 3 = ["t1"; "Acme"; ""; ""]
  ∧ unprocessed_rows numericise_digits sheet_with_filtered_row = [3]
  ∧ row_locator acme_record = Some 2
  ∧ run_sheet (process_unprocessed_records numericise_digits client_timeout
                 sheet_with_filtered_row None)
    = [sheet_header;
       [""; "Ghost"; "Research failed: Request timed out.";
        technical_error_decision];
       ["t1"; "Acme"; ""; ""]].
Proof.
  split; [vm_cast_no_check (eq_refl (Ok [acme_record]))|].
  split_and!; vm_compute; reflexivity.
Qed.

(** C5 fails on the code.  [process_unprocessed_records] never calls
    [setup_required_columns]: no run changes the header row.  On
    [sheet_without_result_columns] the run grades the record, its
    [update_record] reports success, and the sheet is what it was, without
    the two columns; [setup_required_columns] on the same sheet appends
    them. *)
Theorem run_leaves_header_row
    (numericise : string → cell) (client : string → string + string)
    (ws : Worksheet) (max_records : option Z) :
  ws_header_values (run_sheet
      (process_unprocessed_records numericise client ws max_records))
  = ws_header_values ws
  ∧ (let r := process_unprocessed_records numericise_digits client_timeout
                sheet_without_result_columns None in
     run_sheet r = sheet_without_result_columns
     ∧ map g_success (run_graded r) = [true]
     ∧ map g_decision (run_graded r) = [technical_error_decision]
     ∧ index_of "Decision" (ws_header_values (run_sheet r)) = None)
  ∧ setup_required_columns sheet_without_result_columns
    = ([["Timestamp"; "Company Name"; "Research Notes"; "Decision"];
        ["t1"; "Acme"]], true).
Proof.
  split; [|split; [cbv zeta; split_and!; vm_compute; reflexivity
                  |vm_compute; reflexivity]].
  destruct (get_unprocessed_records numericise ws) as [us|e] eqn:Hget.
  - rewrite (process_unprocessed_records_loop _ _ _ _ _ Hget).
    apply (process_records_header client _ 2); [lia|].
    by apply (limited_locators numericise ws).
  - unfold process_unprocessed_records. by rewrite Hget.
Qed.

(** * More about the decision extractor *)

Section ExtractorMore.

Implicit Types (lines : list string) (line category reasoning : string).

Lemma lstrip_suffix (s : string) : ∃ a, s = a +:+ lstrip s.
Proof.
  induction s as [|c s [a IH]]; [by exists ""|].
  simpl. destruct (is_space c).
  - exists (String c a). by rewrite PyStrFacts.app_cons, <- IH.
  - by exists "".
Qed.

Lemma rstrip_prefix (s : string) : ∃ b, s = rstrip s +:+ b.
Proof.
  induction s as [|c s [b IH]]; [by exists ""|].
  simpl. destruct (rstrip s) as [|c' r'] eqn:E.
  - destruct (is_space c).
    + by exists (String c s).
    + exists b. rewrite PyStrFacts.app_cons. by rewrite IH at 1.
  - exists b. rewrite PyStrFacts.app_cons. by rewrite IH at 1.
Qed.

(** A needle found in the stripped text is in the text. *)
Lemma contains_of_strip (n s : string) :
  contains n (strip s) = true → contains n s = true.
Proof.
  intros H. destruct (PyStrFacts.contains_inv _ _ H) as (a & b & Hs).
  destruct (rstrip_prefix s) as [b' Hb'].
  destruct (lstrip_suffix (rstrip s)) as [a' Ha'].
  fold (strip s) in Ha'. rewrite Hb', Ha', Hs.
  replace ((a' +:+ a +:+ n +:+ b) +:+ b') with ((a' +:+ a) +:+ n +:+ (b +:+ b')).
  - apply PyStrFacts.contains_app.
  - by rewrite !PyStrFacts.app_assoc.
Qed.

Lemma contains_strip_eq (c0 cl : ascii) (n1 n0 s : string) :
  String c0 n1 = n0 +:+ String cl "" →
  is_space c0 = false → is_space cl = false →
  contains (String c0 n1) (strip s) = contains (String c0 n1) s.
Proof.
  intros Hn H0 Hl.
  destruct (contains (String c0 n1) s) eqn:E.
  - by apply (PyStrFacts.contains_strip c0 cl n1 n0).
  - destruct (contains (String c0 n1) (strip s)) eqn:E'; [|done].
    apply contains_of_strip in E'. congruence.
Qed.

Lemma classify_tier line : classify line ∈ tiers.
Proof.
  unfold classify, tiers.
  destruct (contains "FLAGSHIP" _); [set_solver|].
  destruct (contains "ELIGIBLE" _); set_solver.
Qed.

Lemma scan_tier lines category reasoning :
  category ∈ tiers → (scan lines category reasoning).1 ∈ tiers.
Proof.
  revert category reasoning.
  induction lines as [|line rest IH]; intros category reasoning H; [done|].
  simpl. destruct (has_decision_marker line), (has_reasoning_marker line);
    simpl; auto using classify_tier.
Qed.

(** Lines without the reasoning marker are passed over by the scan; only
    the category may have changed. *)
Lemma scan_skip (before rest : list string) category reasoning :
  (∀ l, l ∈ before → has_reasoning_marker l = false) →
  ∃ category', scan (before ++ rest) category reasoning = scan rest category' reasoning.
Proof.
  revert category. induction before as [|l0 before IH]; intros category H.
  - by exists category.
  - simpl. rewrite (H l0) by apply list_elem_of_here.
    apply IH. intros l Hl. apply H. by apply list_elem_of_further.
Qed.

Lemma continuation_accepted (accepted rest : list string) reasoning :
  Forall (λ l, continues l = true) accepted →
  continuation (accepted ++ rest) reasoning
  = continuation rest (join_continuation reasoning accepted).
Proof.
  intros H. revert reasoning.
  induction H as [|l accepted Hl _ IH]; intros reasoning; [done|].
  simpl. unfold continues in Hl. rewrite Hl. apply IH.
Qed.

Lemma continuation_stops (rest : list string) reasoning :
  match rest with [] => True | stop :: _ => continues stop = false end →
  continuation rest reasoning = reasoning.
Proof.
  destruct rest as [|stop rest]; [done|]. simpl. unfold continues.
  by intros ->.
Qed.

End ExtractorMore.

(** X1. The category the extractor returns is always one of the three
    tiers, whatever the transcript. *)
Theorem category_is_a_tier (transcript : string) :
  (_extract_tier_and_reasoning transcript).1 ∈ tiers.
Proof.
  unfold _extract_tier_and_reasoning. apply scan_tier. unfold tiers. set_solver.
Qed.

(** X2. A transcript none of whose lines contains the marker "REASONING:"
    gets the fixed reasoning "Unable to parse sponsor decision from research
    output". *)
Theorem no_reasoning_marker_default (transcript : string) :
  (∀ line, line ∈ split newline transcript → has_reasoning_marker line = false) →
  (_extract_tier_and_reasoning transcript).2
  = "Unable to parse sponsor decision from research output".
Proof.
  intros H. unfold _extract_tier_and_reasoning.
  destruct (scan_skip (split newline transcript) [] "Rejected"
              "Unable to parse sponsor decision from research output" H)
    as [c E].
  rewrite app_nil_r in E. by rewrite E.
Qed.

Lemma no_reasoning_marker_default_witness :
  _extract_tier_and_reasoning "SPONSOR DECISION: Eligible
Because it is fine."
  = ("Eligible", "Unable to parse sponsor decision from research output").
Proof.
  pose proof (no_reasoning_marker_default "SPONSOR DECISION: Eligible
Because it is fine.") as H.
  assert ((_extract_tier_and_reasoning "SPONSOR DECISION: Eligible
Because it is fine.").1 = "Eligible") as H1 by reflexivity.
  rewrite (surjective_pairing (_extract_tier_and_reasoning _)), H1, H; [done|].
  intros line Hl. vm_compute in Hl.
  repeat (apply elem_of_cons in Hl as [->|Hl]; [reflexivity|]).
  by apply elem_of_nil in Hl.
Defined.

(** X3. The last decision line read wins, for every tier: when no line
    before a decision line contains the reasoning marker and no line after
    it contains the decision marker, the category is the tier of that
    line. *)
Theorem last_decision_line_wins
    (transcript : string) (before after : list string) (line : string) :
  split newline transcript = before ++ line :: after →
  (∀ l, l ∈ before → has_reasoning_marker l = false) →
  has_decision_marker line = true →
  (∀ l, l ∈ after → has_decision_marker l = false) →
  (_extract_tier_and_reasoning transcript).1 = classify line.
Proof.
  intros Hsplit Hbefore Hd Hafter. unfold _extract_tier_and_reasoning.
  rewrite Hsplit.
  destruct (scan_skip before (line :: after) "Rejected"
              "Unable to parse sponsor decision from research output" Hbefore)
    as [c ->].
  simpl. rewrite Hd. destruct (has_reasoning_marker line); [done|].
  apply scan_category_stable. intros l Hl Hdl. rewrite (Hafter l Hl) in Hdl. done.
Qed.

Lemma last_decision_line_wins_witness :
  (_extract_tier_and_reasoning "SPONSOR DECISION: Flagship
Sponsor decision: eligible
REASONING: Second thoughts.").1 = "Eligible".
Proof.
  apply (last_decision_line_wins _ ["SPONSOR DECISION: Flagship"]
           ["REASONING: Second thoughts."] "Sponsor decision: eligible").
  - reflexivity.
  - intros l Hl. apply list_elem_of_singleton in Hl as ->. reflexivity.
  - reflexivity.
  - intros l Hl. apply list_elem_of_singleton in Hl as ->. reflexivity.
Defined.

(** X4. The tier of a decision line is read off the text after its last
    colon without regard to letter case or surrounding whitespace, and
    FLAGSHIP takes precedence over ELIGIBLE: Flagship when that text
    contains FLAGSHIP, else Eligible when it contains ELIGIBLE, else
    Rejected. *)
Theorem classify_by_tier_words (line : string) :
  let text := upper (last_item (split colon line)) in
  classify line
  = if contains "FLAGSHIP" text then "Flagship"
    else if contains "ELIGIBLE" text then "Eligible"
    else "Rejected".
Proof.
  cbv zeta. unfold classify. rewrite PyStrFacts.upper_strip.
  rewrite (contains_strip_eq "F" "P" "LAGSHIP" "FLAGSHI") by done.
  by rewrite (contains_strip_eq "E" "E" "LIGIBLE" "ELIGIBL").
Qed.

(** X5. After the first reasoning line the following lines are appended,
    each stripped and joined with one space, for as long as they are not
    blank and do not start with SPONSOR, RESEARCH or SUMMARY (any case); the
    first line that fails the test, or the end of the transcript, ends the
    reasoning. *)
Theorem reasoning_continuation
    (transcript : string) (before accepted rest : list string) (line : string) :
  split newline transcript = before ++ line :: accepted ++ rest →
  (∀ l, l ∈ before → has_reasoning_marker l = false) →
  has_reasoning_marker line = true →
  Forall (λ l, continues l = true) accepted →
  match rest with [] => True | stop :: _ => continues stop = false end →
  (_extract_tier_and_reasoning transcript).2
  = join_continuation (strip (last_item (split_once colon line))) accepted.
Proof.
  intros Hsplit Hbefore Hr Hacc Hstop. unfold _extract_tier_and_reasoning.
  rewrite Hsplit.
  destruct (scan_skip before (line :: accepted ++ rest) "Rejected"
              "Unable to parse sponsor decision from research output" Hbefore)
    as [c ->].
  simpl. rewrite Hr. simpl.
  rewrite continuation_accepted by done. by apply continuation_stops.
Qed.

Lemma reasoning_continuation_witness :
  (_extract_tier_and_reasoning "SPONSOR DECISION: Eligible
REASONING: Stable finances.
  No controversies found.  
Good standing.
Research sources: none
REASONING: ignored").2
  = "Stable finances. No controversies found. Good standing.".
Proof.
  apply (reasoning_continuation _ ["SPONSOR DECISION: Eligible"]
           ["  No controversies found.  "; "Good standing."]
           ["Research sources: none"; "REASONING: ignored"]
           "REASONING: Stable finances.").
  - reflexivity.
  - intros l Hl. apply list_elem_of_singleton in Hl as ->. reflexivity.
  - reflexivity.
  - repeat constructor.
  - reflexivity.
Defined.

(** * More about grading one record *)

Lemma decision_label_of_tier (tier reasoning : string) :
  tier ∈ tiers →
  decision_label (tier +:+ " Sponsor: " +:+ reasoning) = tier +:+ " Sponsor".
Proof.
  unfold tiers. intros H.
  repeat (apply elem_of_cons in H as [->|H]; [reflexivity|]).
  by apply elem_of_nil in H.
Qed.

(** X6. Whatever the research client does, the decision written for a
    record is a tier, the text " Sponsor: " and a reasoning, and the label
    cut from it at the first colon is the tier followed by " Sponsor". *)
Theorem decision_is_tier_and_reasoning
    (client : string → string + string) (company_data : sheet_record) :
  ∃ tier reasoning,
    tier ∈ tiers
    ∧ (research_and_grade_company client company_data).2
      = tier +:+ " Sponsor: " +:+ reasoning
    ∧ decision_label (research_and_grade_company client company_data).2
      = tier +:+ " Sponsor".
Proof.
  unfold research_and_grade_company.
  destruct (client _) as [research_output|e].
  - destruct (_extract_tier_and_reasoning research_output)
      as [category reasoning] eqn:E.
    assert (category ∈ tiers) as Ht.
    { change category with (category, reasoning).1. rewrite <- E.
      unfold _extract_tier_and_reasoning. apply scan_tier.
      unfold tiers. set_solver. }
    exists category, reasoning. split_and!; [done|done|].
    by apply decision_label_of_tier.
  - exists "Rejected", "Unable to complete research due to technical error".
    split_and!; [unfold tiers; set_solver|reflexivity|reflexivity].
Qed.

(** * More about listing the unprocessed records *)

Section ListingMore.

Variable numericise : string → cell.

Implicit Types (raw us : list sheet_record) (record : sheet_record).

Lemma has_text_results_strip record :
  has_text_results record = true ↔
  ∃ a b, cell_strip (dict_get record "Research Notes" (CStr "")) = Ok a
         ∧ cell_strip (dict_get record "Decision" (CStr "")) = Ok b.
Proof.
  unfold has_text_results.
  destruct (dict_get record "Research Notes" (CStr "")) as [a| |];
    destruct (dict_get record "Decision" (CStr "")) as [b| |]; simpl;
    split; try done; try (intros (? & ? & ? & ?); done).
  all: intros _; eauto.
Qed.

(** The loop of [get_unprocessed_records] returns exactly when every
    record it is given has text results. *)
Lemma unprocessed_from_ok (i : Z) (all_records : list sheet_record) :
  (∃ us, unprocessed_from i all_records = Ok us)
  ↔ Forall (λ r, has_text_results r = true) all_records.
Proof.
  revert i. induction all_records as [|record rest IH]; intros i.
  - split; [by constructor|]. intros _. by exists [].
  - simpl. split.
    + intros [us H].
      destruct (cell_strip (dict_get record "Research Notes" (CStr "")))
        as [a|] eqn:Ea; [|done].
      destruct (cell_strip (dict_get record "Decision" (CStr "")))
        as [b|] eqn:Eb; [|done].
      destruct (unprocessed_from (i + 1) rest) as [us'|] eqn:Erest; [|done].
      constructor.
      * apply has_text_results_strip. eauto.
      * apply (IH (i + 1)). eauto.
    + intros H. apply Forall_cons in H as [Hr Hrest].
      apply has_text_results_strip in Hr as (a & b & -> & ->).
      apply (IH (i + 1)) in Hrest as [us' ->].
      destruct (String.eqb a "" && String.eqb b ""); eauto.
Qed.

Lemma unprocessed_from_raises (i : Z) (all_records : list sheet_record) (e : pyexn) :
  unprocessed_from i all_records = Raise e → e = AttributeError "strip".
Proof.
  revert i. induction all_records as [|record rest IH]; intros i H; simpl in H;
    [done|].
  destruct (dict_get record "Research Notes" (CStr "")) as [a| |];
    simpl in H; [|congruence|congruence].
  destruct (dict_get record "Decision" (CStr "")) as [b| |];
    simpl in H; [|congruence|congruence].
  destruct (unprocessed_from (i + 1) rest) as [us'|e'] eqn:Erest.
  - by destruct (String.eqb (strip a) "" && String.eqb (strip b) "").
  - injection H as <-. by apply (IH (i + 1)).
Qed.

(** The returned records are the unprocessed records of the list, in
    order, each with a locator added. *)
Lemma unprocessed_from_records (i : Z) (all_records us : list sheet_record) :
  unprocessed_from i all_records = Ok us →
  Forall2 (λ u r, ∃ L, u = <["_row_index" := CInt L]> r)
          us (List.filter is_unprocessed all_records).
Proof.
  revert i us. induction all_records as [|record rest IH]; intros i us H;
    simpl in H.
  - injection H as <-. constructor.
  - simpl. unfold is_unprocessed at 1.
    destruct (cell_strip (dict_get record "Research Notes" (CStr "")))
      as [a|]; [|done].
    destruct (cell_strip (dict_get record "Decision" (CStr "")))
      as [b|]; [|done].
    destruct (unprocessed_from (i + 1) rest) as [us'|] eqn:Erest; [|done].
    specialize (IH _ _ Erest).
    destruct (String.eqb a "" && String.eqb b ""); injection H as <-; [|done].
    constructor; [by exists (i + 2)|done].
Qed.

(** When no record is filtered out, locators are sheet rows. *)
Lemma unprocessed_from_all_valid (i : Z) raw us :
  Forall (λ r, is_valid_record r = true) raw →
  unprocessed_from i raw = Ok us →
  row_locator <$> us = Some <$> unprocessed_rows_from (i + 2) raw.
Proof.
  intros Hvalid. revert i us.
  induction Hvalid as [|record rest Hv _ IH]; intros i us H; simpl in H.
  - by injection H as <-.
  - simpl. rewrite Hv. unfold is_unprocessed. simpl.
    destruct (cell_strip (dict_get record "Research Notes" (CStr "")))
      as [a|]; [|done].
    destruct (cell_strip (dict_get record "Decision" (CStr "")))
      as [b|]; [|done].
    destruct (unprocessed_from (i + 1) rest) as [us'|] eqn:Erest; [|done].
    specialize (IH _ _ Erest).
    replace (i + 1 + 2) with (i + 2 + 1) in IH by lia.
    destruct (String.eqb a "" && String.eqb b ""); injection H as <-; [|done].
    rewrite !fmap_cons, row_locator_insert. by f_equal.
Qed.

Lemma valid_records_all raw :
  Forall (λ r, is_valid_record r = true) raw → valid_records raw = raw.
Proof.
  induction 1 as [|r raw Hr _ IH]; [done|].
  unfold valid_records in *. simpl. by rewrite Hr, IH.
Qed.

End ListingMore.

(** X7. Once [worksheet.get_all_records()] has returned its records,
    whatever they are, the filter and the loop of [get_unprocessed_records]
    produce a list exactly when every valid record has texts (or nothing)
    under "Research Notes" and "Decision"; a number in one of these fields
    of a valid record makes the loop raise [AttributeError], the only
    exception the loop raises. *)
Theorem listing_returns_iff_text_results (records : list sheet_record) :
  ((∃ us, unprocessed_from 0 (valid_records records) = Ok us)
   ↔ Forall (λ r, has_text_results r = true) (valid_records records))
  ∧ (∀ e, unprocessed_from 0 (valid_records records) = Raise e →
          e = AttributeError "strip").
Proof.
  split; [apply unprocessed_from_ok|]. intros e. apply unprocessed_from_raises.
Qed.

Lemma listing_returns_iff_text_results_witness :
  unprocessed_from 0
    (valid_records (ws_get_all_records numericise_digits sheet_with_numeric_decision))
  = Raise (AttributeError "strip").
Proof.
  destruct (listing_returns_iff_text_results
              (ws_get_all_records numericise_digits sheet_with_numeric_decision))
    as [Hok Hraise].
  destruct (unprocessed_from 0
              (valid_records
                 (ws_get_all_records numericise_digits sheet_with_numeric_decision)))
    as [us|e] eqn:E.
  - exfalso.
    assert (forallb has_text_results
              (valid_records
                 (ws_get_all_records numericise_digits sheet_with_numeric_decision))
            = false) as Hall by (vm_compute; reflexivity).
    apply not_true_iff_false in Hall. apply Hall.
    apply forallb_forall. intros r Hr. apply list_elem_of_In in Hr.
    revert r Hr. apply Forall_forall. apply Hok. by exists us.
  - f_equal. by apply Hraise.
Defined.

(** X8. The records [get_unprocessed_records] returns are the valid
    records with blank results, none left out and none added, in the order
    of the sheet; each is the sheet's record with the key ['_row_index']
    set. *)
Theorem listing_returns_unprocessed_in_order
    (numericise : string → cell) (ws : Worksheet) (us : list sheet_record) :
  get_unprocessed_records numericise ws = Ok us →
  Forall2 (λ u r, ∃ L, u = <["_row_index" := CInt L]> r)
          us (List.filter is_unprocessed (get_all_records numericise ws)).
Proof. apply unprocessed_from_records. Qed.

Lemma listing_returns_unprocessed_in_order_witness :
  Forall2 (λ u r, ∃ L, u = <["_row_index" := CInt L]> r)
          five_unprocessed_records
          (List.filter is_unprocessed
             (get_all_records numericise_digits sheet_five_unprocessed)).
Proof.
  apply (listing_returns_unprocessed_in_order numericise_digits
           sheet_five_unprocessed five_unprocessed_records).
  vm_cast_no_check (eq_refl (Ok five_unprocessed_records)).
Defined.

(** X9. When no row of the sheet is filtered out (every row has a
    timestamp and a company name), the locator of every returned record is
    its sheet row. *)
Theorem locators_are_rows_without_filtered_rows
    (numericise : string → cell) (ws : Worksheet) (us : list sheet_record) :
  Forall (λ r, is_valid_record r = true) (ws_get_all_records numericise ws) →
  get_unprocessed_records numericise ws = Ok us →
  row_locator <$> us = Some <$> unprocessed_rows numericise ws.
Proof.
  intros Hvalid H. unfold get_unprocessed_records, get_all_records in H.
  rewrite (valid_records_all _ Hvalid) in H.
  by apply (unprocessed_from_all_valid 0).
Qed.

Lemma locators_are_rows_without_filtered_rows_witness :
  row_locator <$> five_unprocessed_records = [Some 2; Some 3; Some 4; Some 5; Some 6].
Proof.
  rewrite (locators_are_rows_without_filtered_rows numericise_digits
             sheet_five_unprocessed five_unprocessed_records).
  - vm_compute. reflexivity.
  - assert (forallb is_valid_record
              (ws_get_all_records numericise_digits sheet_five_unprocessed) = true)
      as Hall by (vm_compute; reflexivity).
    apply Forall_forall. intros r Hr. apply list_elem_of_In in Hr.
    exact (proj1 (forallb_forall _ _) Hall r Hr).
  - vm_cast_no_check (eq_refl (Ok five_unprocessed_records)).
Defined.

(** * More about [update_record] *)

Section UpdateMore.

Implicit Types (ws : Worksheet) (headers : list string)
  (updates : list (string * cell)).

Lemma set_at_same {A} (d x : A) (i : nat) (l : list A) :
  l !! i = Some x → set_at d i x l = l.
Proof.
  revert l. induction i as [|i IH]; intros [|h t] H; simpl in *; try done.
  - by injection H as ->.
  - by rewrite IH.
Qed.

Lemma lookup_set_at_eq {A} (d x : A) (i : nat) (l : list A) :
  set_at d i x l !! i = Some x.
Proof. revert l. induction i as [|i IH]; intros [|h t]; simpl; auto. Qed.

Lemma lookup_set_at_ne {A} (d x y : A) (i j : nat) (l : list A) :
  i ≠ j → l !! j = Some y → set_at d i x l !! j = Some y.
Proof.
  revert j l. induction i as [|i IH]; intros [|j] [|h t] Hne H; simpl in *;
    try done.
  apply IH; [lia|done].
Qed.

Lemma lookup_nth_default {A} (d x : A) (i : nat) (l : list A) :
  l !! i = Some x → nth i l d = x.
Proof. revert l. induction i as [|i IH]; intros [|h t] H; simpl in *; try done.
  - by injection H. - by apply IH. Qed.

Lemma ws_update_cell_holds ws ws' (row col : Z) (v : string) :
  ws_update_cell ws row col v = Some ws' → cell_holds ws' row col v.
Proof.
  unfold ws_update_cell. destruct ((row <? 1) || (col <? 1)); [done|].
  intros [= <-]. eexists. split; apply lookup_set_at_eq.
Qed.

Lemma ws_update_cell_keeps ws ws' (row col r c : Z) (v w : string) :
  ws_update_cell ws row col v = Some ws' →
  1 ≤ r → 1 ≤ c → r ≠ row ∨ c ≠ col →
  cell_holds ws r c w → cell_holds ws' r c w.
Proof.
  unfold ws_update_cell. destruct ((row <? 1) || (col <? 1)) eqn:E; [done|].
  apply orb_false_iff in E as [E1 E2]. apply Z.ltb_ge in E1, E2.
  intros [= <-] Hr Hc Hne (cells & Hrow & Hcell).
  destruct (decide (r = row)) as [->|Hrr].
  - exists (set_at "" (Z.to_nat (col - 1)) v cells). split.
    + rewrite (lookup_nth_default [] cells _ _ Hrow). apply lookup_set_at_eq.
    + apply lookup_set_at_ne; [|done]. destruct Hne; [done|lia].
  - exists cells. split; [|done]. apply lookup_set_at_ne; [lia|done].
Qed.

Lemma ws_update_cell_same ws (row col : Z) (v : string) :
  1 ≤ row → 1 ≤ col → cell_holds ws row col v →
  ws_update_cell ws row col v = Some ws.
Proof.
  intros Hr Hc (cells & Hrow & Hcell). rewrite ws_update_cell_ok by done.
  unfold sheet_row. rewrite (lookup_nth_default [] cells _ _ Hrow).
  by rewrite (set_at_same "" v _ cells Hcell), (set_at_same [] cells _ ws Hrow).
Qed.

Lemma cell_holds_text ws (row col : Z) (v : string) :
  cell_holds ws row col v → cell_text ws row col = v.
Proof.
  intros (cells & Hrow & Hcell). unfold cell_text.
  rewrite (lookup_nth_default [] cells _ _ Hrow).
  by apply lookup_nth_default.
Qed.

(** Two fields with the same column are the same field. *)
Lemma index_of_inj headers (f g : string) (k : nat) :
  index_of f headers = Some k → index_of g headers = Some k → f = g.
Proof.
  intros Hf Hg. apply index_of_Some in Hf. apply index_of_Some in Hg. congruence.
Qed.

Lemma update_fields_keeps headers ws (row r c : Z) updates (w : string) :
  1 ≤ r → 1 ≤ c →
  r ≠ row ∨ (∀ field, field ∈ updates.*1 →
                      index_of field headers ≠ Some (Z.to_nat (c - 1))) →
  cell_holds ws r c w →
  cell_holds (update_fields headers ws row updates).1 r c w.
Proof.
  intros Hr Hc. revert ws.
  induction updates as [|[field value] rest IH]; intros ws Hne H; simpl; [done|].
  assert (r ≠ row ∨ (∀ f, f ∈ rest.*1 →
            index_of f headers ≠ Some (Z.to_nat (c - 1)))) as Hne'.
  { destruct Hne as [?|Hne]; [by left|right].
    intros f Hf. apply Hne. rewrite fmap_cons. by apply list_elem_of_further. }
  destruct (index_of field headers) as [k|] eqn:Ek; [|by apply IH].
  destruct (ws_update_cell ws row (Z.of_nat k + 1) (py_str value))
    as [ws'|] eqn:E; [|done].
  apply IH; [done|]. apply (ws_update_cell_keeps _ _ _ _ _ _ _ _ E); [done..| |done].
  destruct Hne as [?|Hne]; [by left|right]. intros ->.
  apply (Hne field); [rewrite fmap_cons; apply list_elem_of_here|].
  rewrite Ek. f_equal. lia.
Qed.

(** With distinct fields, every field that is a header ends in its cell. *)
Lemma update_fields_holds headers ws (row : Z) updates
    (field : string) (value : cell) (k : nat) :
  1 ≤ row → NoDup updates.*1 →
  (field, value) ∈ updates → index_of field headers = Some k →
  cell_holds (update_fields headers ws row updates).1 row (Z.of_nat k + 1)
             (py_str value).
Proof.
  intros Hrow. revert ws.
  induction updates as [|[f0 v0] rest IH]; intros ws Hnd Hin Hk.
  - by apply elem_of_nil in Hin.
  - rewrite fmap_cons in Hnd. apply NoDup_cons in Hnd as [Hfresh Hnd]. simpl.
    apply elem_of_cons in Hin as [[= <- <-]|Hin].
    + rewrite Hk.
      destruct (ws_update_cell ws row (Z.of_nat k + 1) (py_str value))
        as [ws'|] eqn:E; [|apply ws_update_cell_fails in E; lia].
      apply update_fields_keeps; [lia|lia| |by apply (ws_update_cell_holds ws)].
      right. intros f Hf Hidx.
      replace (Z.to_nat (Z.of_nat k + 1 - 1)) with k in Hidx by lia.
      rewrite (index_of_inj _ _ _ _ Hidx Hk) in Hf. done.
    + destruct (index_of f0 headers) as [k0|]; [|by apply IH].
      destruct (ws_update_cell ws row (Z.of_nat k0 + 1) (py_str v0))
        as [ws'|] eqn:E; [|apply ws_update_cell_fails in E; lia].
      by apply IH.
Qed.

Lemma update_fields_frame headers ws (row r c : Z) updates :
  1 ≤ r → 1 ≤ c →
  r ≠ row ∨ (∀ field, field ∈ updates.*1 →
                      index_of field headers ≠ Some (Z.to_nat (c - 1))) →
  cell_text (update_fields headers ws row updates).1 r c = cell_text ws r c.
Proof.
  intros Hr Hc. revert ws.
  induction updates as [|[field value] rest IH]; intros ws Hne; simpl; [done|].
  assert (r ≠ row ∨ (∀ f, f ∈ rest.*1 →
            index_of f headers ≠ Some (Z.to_nat (c - 1)))) as Hne'.
  { destruct Hne as [?|Hne]; [by left|right].
    intros f Hf. apply Hne. rewrite fmap_cons. by apply list_elem_of_further. }
  destruct (index_of field headers) as [k|] eqn:Ek; [|by apply IH].
  destruct (ws_update_cell ws row (Z.of_nat k + 1) (py_str value))
    as [ws'|] eqn:E; [|done].
  rewrite IH by done. rewrite (cell_text_update _ _ _ _ _ _ _ E) by done.
  case_decide as Hd; [|done]. destruct Hd as [-> ->].
  destruct Hne as [?|Hne]; [done|]. exfalso.
  apply (Hne field); [rewrite fmap_cons; apply list_elem_of_here|].
  rewrite Ek. f_equal. lia.
Qed.

Lemma update_fields_unknown headers ws (row : Z) updates :
  (∀ field, field ∈ updates.*1 → index_of field headers = None) →
  update_fields headers ws row updates = (ws, true).
Proof.
  induction updates as [|[field value] rest IH]; intros H; simpl; [done|].
  rewrite (H field) by (rewrite fmap_cons; apply list_elem_of_here).
  apply IH. intros f Hf. apply H. rewrite fmap_cons. by apply list_elem_of_further.
Qed.

Lemma update_fields_bad_row headers ws (row : Z) updates (field : string) :
  row < 1 → field ∈ updates.*1 → field ∈ headers →
  update_fields headers ws row updates = (ws, false).
Proof.
  intros Hrow. induction updates as [|[f0 v0] rest IH]; intros Hin Hhdr.
  - by apply elem_of_nil in Hin.
  - simpl. destruct (index_of f0 headers) as [k|] eqn:Ek.
    + unfold ws_update_cell.
      assert ((row <? 1) || (Z.of_nat k + 1 <? 1) = true) as ->; [|done].
      apply orb_true_iff. left. by apply Z.ltb_lt.
    + rewrite fmap_cons in Hin. apply elem_of_cons in Hin as [->|Hin].
      * by apply index_of_None in Ek.
      * by apply IH.
Qed.

Lemma update_fields_noop headers ws (row : Z) updates :
  1 ≤ row →
  (∀ field value k, (field, value) ∈ updates → index_of field headers = Some k →
                    cell_holds ws row (Z.of_nat k + 1) (py_str value)) →
  update_fields headers ws row updates = (ws, true).
Proof.
  intros Hrow. induction updates as [|[f0 v0] rest IH]; intros H; simpl; [done|].
  assert (update_fields headers ws row rest = (ws, true)) as Hrest.
  { apply IH. intros f v k Hin. apply (H f v k). by apply list_elem_of_further. }
  destruct (index_of f0 headers) as [k|] eqn:Ek; [|done].
  rewrite (ws_update_cell_same ws row _ (py_str v0)); [done|done|lia|].
  apply (H f0 v0 k); [apply list_elem_of_here|done].
Qed.

End UpdateMore.

(** X10. With a row number of 1 or more and distinct field names,
    [update_record] returns [True]; every field that is a header is written
    as [str(value)] into the column of the first header of that name, a
    field that is no header is skipped without blocking the others, and no
    other cell of the sheet changes. *)
Theorem update_record_writes_known_fields
    (ws : Worksheet) (row_index : Z) (updates : list (string * cell)) :
  1 ≤ row_index →
  NoDup updates.*1 →
  let ws' := (update_record ws row_index updates).1 in
  (update_record ws row_index updates).2 = true
  ∧ (∀ field value k,
       (field, value) ∈ updates →
       index_of field (ws_header_values ws) = Some k →
       cell_text ws' row_index (Z.of_nat k + 1) = py_str value)
  ∧ (∀ r c, 1 ≤ r → 1 ≤ c →
       r ≠ row_index
       ∨ (∀ field, field ∈ updates.*1 →
            index_of field (ws_header_values ws) ≠ Some (Z.to_nat (c - 1))) →
       cell_text ws' r c = cell_text ws r c).
Proof.
  intros Hrow Hnd. cbv zeta. unfold update_record. split_and!.
  - by apply update_fields_success.
  - intros field value k Hin Hk. apply cell_holds_text.
    by apply (update_fields_holds _ _ _ _ field).
  - intros r c Hr Hc Hne. by apply update_fields_frame.
Qed.

Lemma update_record_writes_known_fields_witness :
  let ws' := (update_record sheet_five_unprocessed 3
                [("Score", CInt 7); ("Decision", CStr "Eligible Sponsor: ok")]).1 in
  cell_text ws' 3 4 = "Eligible Sponsor: ok"
  ∧ cell_text ws' 3 2 = "Bolt".
Proof.
  cbv zeta.
  destruct (update_record_writes_known_fields sheet_five_unprocessed 3
              [("Score", CInt 7); ("Decision", CStr "Eligible Sponsor: ok")])
    as (_ & Hwrite & Hframe).
  - lia.
  - apply (bool_decide_unpack _). vm_compute. exact I.
  - cbv zeta in Hwrite, Hframe. split.
    + refine (Hwrite "Decision" (CStr "Eligible Sponsor: ok") 3%nat _ _);
        [|reflexivity].
      apply list_elem_of_further, list_elem_of_here.
    + rewrite Hframe; [reflexivity|lia|lia|].
      right. intros field Hf. vm_compute in Hf.
      repeat (apply elem_of_cons in Hf as [->|Hf]; [vm_compute; discriminate|]).
      by apply elem_of_nil in Hf.
Defined.

(** X11. When none of the fields is a header, [update_record] writes
    nothing and still returns [True], whatever the row number. *)
Theorem update_record_unknown_fields
    (ws : Worksheet) (row_index : Z) (updates : list (string * cell)) :
  (∀ field, field ∈ updates.*1 → field ∉ ws_header_values ws) →
  update_record ws row_index updates = (ws, true).
Proof.
  intros H. unfold update_record. apply update_fields_unknown.
  intros field Hf. destruct (index_of field (ws_header_values ws)) as [k|] eqn:E;
    [|done].
  apply index_of_Some in E. exfalso. apply (H field Hf).
  by eapply list_elem_of_lookup_2.
Qed.

Lemma update_record_unknown_fields_witness :
  update_record sheet_without_result_columns 2
    [("Research Notes", CStr "notes"); ("Decision", CStr "Flagship Sponsor: x")]
  = (sheet_without_result_columns, true).
Proof.
  apply update_record_unknown_fields.
  intros field Hf. vm_compute in Hf.
  repeat (apply elem_of_cons in Hf as [->|Hf];
          [vm_compute; intros Hin;
           repeat (apply elem_of_cons in Hin as [Hin|Hin]; [discriminate|]);
           by apply elem_of_nil in Hin|]).
  by apply elem_of_nil in Hf.
Defined.

(** X12. With a row number below 1, [update_record] returns [False] as
    soon as one of the fields is a header, and the sheet is left as it
    was. *)
Theorem update_record_bad_row
    (ws : Worksheet) (row_index : Z) (updates : list (string * cell))
    (field : string) :
  row_index < 1 →
  field ∈ updates.*1 → field ∈ ws_header_values ws →
  update_record ws row_index updates = (ws, false).
Proof. intros. unfold update_record. by eapply update_fields_bad_row. Qed.

Lemma update_record_bad_row_witness :
  update_record sheet_five_unprocessed 0 [("Decision", CStr "x")]
  = (sheet_five_unprocessed, false).
Proof.
  apply (update_record_bad_row _ _ _ "Decision").
  - lia.
  - vm_compute. apply list_elem_of_here.
  - vm_compute. do 3 apply list_elem_of_further. apply list_elem_of_here.
Defined.

(** X13. [update_record] is idempotent below the header: for a row
    number of 2 or more and distinct field names, a second call with the
    same fields returns [True] and leaves the sheet of the first call
    unchanged. *)
Theorem update_record_idempotent
    (ws : Worksheet) (row_index : Z) (updates : list (string * cell)) :
  2 ≤ row_index →
  NoDup updates.*1 →
  update_record (update_record ws row_index updates).1 row_index updates
  = ((update_record ws row_index updates).1, true).
Proof.
  intros Hrow Hnd. unfold update_record.
  rewrite update_fields_header by done.
  apply update_fields_noop; [lia|].
  intros field value k Hin Hk.
  apply (update_fields_holds _ _ _ _ field); [lia|done..].
Qed.

Lemma update_record_idempotent_witness :
  let updates := [("Research Notes", CStr "notes"); ("Decision", CStr "x")] in
  update_record (update_record sheet_five_unprocessed 4 updates).1 4 updates
  = ((update_record sheet_five_unprocessed 4 updates).1, true).
Proof.
  cbv zeta. apply update_record_idempotent; [lia|].
  apply (bool_decide_unpack _). vm_compute. exact I.
Defined.

(** * More about the header row and [get_record_by_row] *)

Section HeaderMore.

Implicit Types (ws : Worksheet) (row headers : list string).

Lemma trim_row_fixed (A B : list string) :
  trim_row A = A → trim_row (A ++ B) = A ++ trim_row B.
Proof.
  induction A as [|c A IH]; intros H; [done|].
  simpl in *. destruct (trim_row A) as [|c' A'] eqn:E.
  - destruct (truthy c); [|done]. injection H as <-. simpl.
    by destruct (trim_row B).
  - injection H as H. rewrite IH by done. rewrite <- H. done.
Qed.

Lemma trim_row_idem row : trim_row (trim_row row) = trim_row row.
Proof.
  induction row as [|c r IH]; [done|].
  simpl. destruct (trim_row r) as [|c' r'] eqn:E.
  - destruct (truthy c) eqn:Ec; [|done]. simpl. by rewrite Ec.
  - simpl in *. by rewrite IH.
Qed.

Lemma trim_row_replicate (k : nat) : trim_row (replicate k "") = [].
Proof. induction k as [|k IH]; [done|]. simpl. by rewrite IH. Qed.

Lemma trim_row_empties row (k : nat) :
  trim_row (row ++ replicate k "") = trim_row row.
Proof.
  induction row as [|c r IH]; simpl; [apply trim_row_replicate|by rewrite IH].
Qed.

Lemma elem_of_trim_row (c : string) row :
  c ∈ row → truthy c = true → c ∈ trim_row row.
Proof.
  intros Hin Hc. destruct (trim_row_decompose row) as [k Hk].
  rewrite Hk in Hin. apply elem_of_app in Hin as [?|Hin]; [done|].
  apply elem_of_replicate in Hin as [-> _]. done.
Qed.

Lemma nth_trim_row row (i : nat) : nth i (trim_row row) "" = nth i row "".
Proof.
  destruct (trim_row_decompose row) as [k Hk]. rewrite Hk at 2.
  destruct (decide (i < length (trim_row row))%nat) as [Hlt|Hge].
  - by rewrite app_nth1.
  - rewrite app_nth2 by lia. rewrite nth_overflow by lia.
    destruct (decide (i - length (trim_row row) < k)%nat).
    + symmetry. apply lookup_nth_default. by apply lookup_replicate_2.
    + rewrite nth_overflow; [done|]. rewrite length_replicate. lia.
Qed.

Lemma index_of_app_l (c : string) (A B : list string) (k : nat) :
  index_of c A = Some k → index_of c (A ++ B) = Some k.
Proof.
  revert k. induction A as [|a A IH]; intros k H; simpl in *; [done|].
  destruct (String.eqb a c); [done|].
  destruct (index_of c A) as [j|]; [|done]. by rewrite (IH j).
Qed.

Lemma all_empty_replicate (r : list string) :
  Forall (eq "") r → r = replicate (length r) "".
Proof. induction 1 as [|x r <- _ IH]; [done|]. simpl. by rewrite <- IH. Qed.

(** The header row after the loop: the local headers, the appended names,
    and what was beyond them. *)
Lemma add_columns_shape (required : list string) headers ws (r : list string) :
  hd [] ws = headers ++ r →
  ∃ added r',
    hd [] (add_columns headers ws required).1 = (headers ++ added) ++ r'
    ∧ (Forall (eq "") r → Forall (eq "") r')
    ∧ (∀ c, c ∈ required → c ∈ headers ++ added)
    ∧ tl (add_columns headers ws required).1 = tl ws
    ∧ (add_columns headers ws required).2 = true.
Proof.
  revert headers ws r.
  induction required as [|column rest IH]; intros headers ws r Hhd; simpl.
  - exists [], r. rewrite app_nil_r. split_and!; [done|done| |done|done].
    intros c Hc. by apply elem_of_nil in Hc.
  - destruct (index_of column headers) as [k|] eqn:E.
    + destruct (IH headers ws r Hhd) as (added & r' & H1 & H2 & H3 & H4 & H5).
      exists added, r'. split_and!; [done|done| |done|done].
      intros c Hc. apply elem_of_cons in Hc as [->|Hc]; [|by apply H3].
      apply elem_of_app. left. apply index_of_Some in E.
      by eapply list_elem_of_lookup_2.
    + rewrite ws_update_cell_header.
      destruct (IH (headers ++ [column])
                   (set_at "" (length headers) column (hd [] ws) :: tl ws) (tl r))
        as (added & r' & H1 & H2 & H3 & H4 & H5).
      { simpl. rewrite Hhd, set_at_app_length. by rewrite <- app_assoc. }
      exists (column :: added), r'.
      split_and!; [|intros Hr; apply H2; by destruct Hr| |done|done].
      * rewrite H1. by rewrite <- (app_assoc headers [column] added).
      * intros c Hc. rewrite (app_assoc headers [column] added : headers ++ column :: added = _).
        apply elem_of_cons in Hc as [->|Hc]; [|by apply H3].
        apply elem_of_app. left. apply elem_of_app. right. apply list_elem_of_here.
Qed.

Lemma foldl_insert_notin (keys : list string) (vals : list cell)
    (m : sheet_record) (f : string) :
  f ∉ keys →
  foldl (λ m kv, <[kv.1 := kv.2]> m) m (zip keys vals) !! f = m !! f.
Proof.
  revert vals m. induction keys as [|k keys IH]; intros vals m Hf; [done|].
  destruct vals as [|v vals]; [done|]. simpl.
  apply not_elem_of_cons in Hf as [Hne Hf].
  rewrite IH by done. by rewrite lookup_insert_ne.
Qed.

Lemma foldl_insert_lookup (keys : list string) (vals : list cell)
    (m : sheet_record) (k : nat) (f : string) (v : cell) :
  NoDup keys → keys !! k = Some f → vals !! k = Some v →
  foldl (λ m kv, <[kv.1 := kv.2]> m) m (zip keys vals) !! f = Some v.
Proof.
  revert vals m k. induction keys as [|k0 keys IH]; intros vals m k Hnd Hk Hv;
    [done|].
  destruct vals as [|v0 vals]; [done|]. simpl.
  apply NoDup_cons in Hnd as [Hfresh Hnd].
  destruct k as [|k]; simpl in Hk, Hv.
  - injection Hk as ->. injection Hv as ->.
    rewrite foldl_insert_notin by done. by rewrite lookup_insert_eq.
  - by apply (IH _ _ k).
Qed.

Lemma pad_values_lookup headers (values : list string) (k : nat) :
  (k < length headers)%nat →
  pad_values headers values !! k = Some (nth k values "").
Proof.
  intros Hk. unfold pad_values.
  destruct (decide (k < length values)%nat) as [Hlt|Hge].
  - rewrite lookup_app_l by done.
    destruct (lookup_lt_is_Some_2 values k Hlt) as [x Hx].
    by rewrite Hx, (lookup_nth_default "" x k values Hx).
  - rewrite lookup_app_r by lia. rewrite nth_overflow by lia.
    apply lookup_replicate_2. lia.
Qed.

(** [get_record_by_row] reads each cell of the row under the name of its
    column, and stores the row number. *)
Lemma get_record_by_row_reads ws (row_index : Z) (k : nat) (f : string) :
  1 ≤ row_index →
  NoDup (ws_header_values ws) →
  ws_header_values ws !! k = Some f →
  f ≠ "_row_index" →
  ∃ record,
    get_record_by_row ws row_index = Some record
    ∧ record !! f = Some (CStr (cell_text ws row_index (Z.of_nat k + 1)))
    ∧ record !! "_row_index" = Some (CInt row_index).
Proof.
  intros Hrow Hnd Hk Hne. unfold get_record_by_row, ws_row_values.
  destruct (row_index <? 1) eqn:E; [apply Z.ltb_lt in E; lia|].
  eexists. split; [done|]. split; [|by rewrite lookup_insert_eq].
  rewrite lookup_insert_ne by done.
  apply (foldl_insert_lookup _ _ _ k); [done|done|].
  rewrite list_lookup_fmap, pad_values_lookup by (by eapply lookup_lt_Some).
  simpl. rewrite nth_trim_row. unfold cell_text.
  by replace (Z.to_nat (Z.of_nat k + 1 - 1)) with k by lia.
Qed.

End HeaderMore.

(** The header row [add_columns_if_missing] leaves: the old one with names
    appended. *)
Lemma add_columns_if_missing_header (ws : Worksheet) (required : list string) :
  ∃ added,
    ws_header_values (add_columns_if_missing ws required).1
    = ws_header_values ws ++ trim_row added
    ∧ (∀ c, c ∈ required → c ∈ ws_header_values ws ++ added)
    ∧ tl (add_columns_if_missing ws required).1 = tl ws
    ∧ (add_columns_if_missing ws required).2 = true.
Proof.
  unfold add_columns_if_missing.
  destruct (trim_row_decompose (hd [] ws)) as [k0 Hk0].
  destruct (add_columns_shape required _ ws _ Hk0)
    as (added & r' & H1 & H2 & H3 & H4 & H5).
  fold (ws_header_values ws) in *.
  exists added. split_and!; [|done..].
  unfold ws_header_values at 1. rewrite H1.
  rewrite (all_empty_replicate r') by (apply H2, Forall_replicate_eq).
  rewrite trim_row_empties. apply trim_row_fixed, trim_row_idem.
Qed.

Lemma add_columns_if_missing_present (ws : Worksheet) (required : list string)
    (c : string) :
  c ∈ required → truthy c = true →
  c ∈ ws_header_values (add_columns_if_missing ws required).1.
Proof.
  intros Hc Ht.
  destruct (add_columns_if_missing_header ws required) as (added & Hhdr & H3 & _).
  apply H3 in Hc. rewrite Hhdr.
  apply elem_of_app in Hc as [Hc|Hc]; apply elem_of_app; [by left|right].
  by apply elem_of_trim_row.
Qed.

(** X14. [add_columns_if_missing] returns [True], leaves the data rows
    alone and only appends: every column of the header row keeps its
    position, and afterwards every required name that is not empty is in
    the header row. *)
Theorem add_columns_if_missing_appends (ws : Worksheet) (required : list string) :
  let ws1 := (add_columns_if_missing ws required).1 in
  (add_columns_if_missing ws required).2 = true
  ∧ tl ws1 = tl ws
  ∧ (∀ c k, index_of c (ws_header_values ws) = Some k →
            index_of c (ws_header_values ws1) = Some k)
  ∧ (∀ c, c ∈ required → truthy c = true → c ∈ ws_header_values ws1).
Proof.
  cbv zeta.
  destruct (add_columns_if_missing_header ws required)
    as (added & Hhdr & H3 & H4 & H5).
  split_and!; [done|done| |].
  - intros c k Hk. rewrite Hhdr. by apply index_of_app_l.
  - intros c Hc Ht. by apply add_columns_if_missing_present.
Qed.

Lemma add_columns_if_missing_appends_witness :
  let ws1 := (add_columns_if_missing sheet_without_result_columns
                ["Company Name"; "Decision"]).1 in
  index_of "Company Name" (ws_header_values ws1) = Some 1%nat
  ∧ "Decision" ∈ ws_header_values ws1.
Proof.
  cbv zeta.
  destruct (add_columns_if_missing_appends sheet_without_result_columns
              ["Company Name"; "Decision"]) as (_ & _ & Hpos & Hin).
  cbv zeta in Hpos, Hin. split.
  - apply Hpos. reflexivity.
  - apply Hin; [|reflexivity]. apply list_elem_of_further, list_elem_of_here.
Defined.

(** X15. What [update_record] writes, [get_record_by_row] reads back: for
    a row number of 2 or more, a header row without duplicates and distinct
    field names, the record read from the row after the update holds
    [str(value)] under every updated field that is a header (other than
    ['_row_index']), and the row number under ['_row_index']. *)
Theorem update_then_get_record
    (ws : Worksheet) (row_index : Z) (updates : list (string * cell))
    (field : string) (value : cell) :
  2 ≤ row_index →
  NoDup (ws_header_values ws) →
  NoDup updates.*1 →
  (field, value) ∈ updates →
  field ∈ ws_header_values ws →
  field ≠ "_row_index" →
  ∃ record,
    get_record_by_row (update_record ws row_index updates).1 row_index = Some record
    ∧ dict_get record field (CStr "") = CStr (py_str value)
    ∧ row_locator record = Some row_index.
Proof.
  intros Hrow Hnd Hnd' Hin Hf Hne.
  destruct (index_of_elem _ _ Hf) as [k Hk].
  pose proof (update_fields_header (ws_header_values ws) ws row_index updates Hrow)
    as Hhdr. fold (update_record ws row_index updates) in Hhdr.
  destruct (get_record_by_row_reads (update_record ws row_index updates).1
              row_index k field) as (record & Hget & Hfield & Hloc).
  - lia.
  - by rewrite Hhdr.
  - rewrite Hhdr. by apply index_of_Some.
  - done.
  - exists record. split; [done|]. split.
    + unfold dict_get. rewrite Hfield. simpl. f_equal.
      apply cell_holds_text. unfold update_record.
      apply (update_fields_holds _ _ _ _ field); [lia|done..].
    + unfold row_locator. by rewrite Hloc.
Qed.

Lemma update_then_get_record_witness :
  ∃ record,
    get_record_by_row
      (update_record sheet_five_unprocessed 3 [("Decision", CInt 7)]).1 3
    = Some record
    ∧ dict_get record "Decision" (CStr "") = CStr "7"
    ∧ row_locator record = Some 3.
Proof.
  apply (update_then_get_record sheet_five_unprocessed 3
           [("Decision", CInt 7)] "Decision" (CInt 7)).
  - lia.
  - apply (bool_decide_unpack _). vm_compute. exact I.
  - apply (bool_decide_unpack _). vm_compute. exact I.
  - apply list_elem_of_here.
  - vm_compute. do 3 apply list_elem_of_further. apply list_elem_of_here.
  - discriminate.
Defined.

(** * More about runs *)

Section RunMore.

Variable numericise : string → cell.
Variable client : string → string + string.

Implicit Types (ws : Worksheet) (records us : list sheet_record).

Local Arguments research_and_grade_company : simpl never.
Local Arguments update_record : simpl never.

(** The loop changes no cell outside the two result columns of the rows
    its records name. *)
Lemma process_records_frame records (lo : Z) ws (handled : list graded) (r c : Z) :
  2 ≤ lo → increasing_locators lo records →
  1 ≤ r → 1 ≤ c →
  (∀ u, u ∈ records → row_locator u ≠ Some r)
  ∨ (index_of "Research Notes" (ws_header_values ws) ≠ Some (Z.to_nat (c - 1))
     ∧ index_of "Decision" (ws_header_values ws) ≠ Some (Z.to_nat (c - 1))) →
  cell_text (run_sheet (process_records client ws handled records)) r c
  = cell_text ws r c.
Proof.
  intros Hlo Hinc Hr Hc. revert lo ws handled Hlo Hinc.
  induction records as [|record rest IH]; intros lo ws handled Hlo Hinc Hne;
    [done|].
  destruct Hinc as (L & HL & HloL & Hrest). simpl.
  destruct (research_and_grade_company client record) as [notes decision].
  rewrite (row_locator_inv _ _ HL).
  destruct (update_record ws L _) as [ws' success] eqn:Eup.
  assert (ws_header_values ws' = ws_header_values ws) as Hhdr.
  { change ws' with (ws', success).1. rewrite <- Eup.
    apply update_fields_header. lia. }
  rewrite (IH (L + 1)); [|lia|done|].
  - change ws' with (ws', success).1. rewrite <- Eup.
    apply update_fields_frame; [done|done|].
    destruct Hne as [Hne|[Hn Hd]].
    + left. intros ->. by apply (Hne record); [apply list_elem_of_here|].
    + right. intros field Hf. simpl in Hf.
      apply elem_of_cons in Hf as [->|Hf]; [done|].
      apply list_elem_of_singleton in Hf as ->. done.
  - rewrite Hhdr. destruct Hne as [Hne|?]; [left|by right].
    intros u Hu. apply Hne. by apply list_elem_of_further.
Qed.

End RunMore.

(** X16. A run never writes outside the result cells: a cell keeps its
    text unless its row is the locator of a record of the batch and its
    column is that of the first "Research Notes" or "Decision" header. *)
Theorem run_writes_only_result_cells
    (numericise : string → cell) (client : string → string + string)
    (ws : Worksheet) (max_records : option Z) (us : list sheet_record) (r c : Z) :
  get_unprocessed_records numericise ws = Ok us →
  1 ≤ r → 1 ≤ c →
  (∀ u, u ∈ limit_records max_records us → row_locator u ≠ Some r)
  ∨ (index_of "Research Notes" (ws_header_values ws) ≠ Some (Z.to_nat (c - 1))
     ∧ index_of "Decision" (ws_header_values ws) ≠ Some (Z.to_nat (c - 1))) →
  cell_text (run_sheet (process_unprocessed_records numericise client ws max_records))
            r c
  = cell_text ws r c.
Proof.
  intros Hget Hr Hc Hne.
  rewrite (process_unprocessed_records_loop _ _ _ _ _ Hget).
  apply (process_records_frame client _ 2); [lia| |done..].
  by apply (limited_locators numericise ws).
Qed.

Lemma run_writes_only_result_cells_witness :
  cell_text (run_sheet (process_unprocessed_records numericise_digits client_timeout
                          sheet_five_unprocessed None)) 3 2
  = "Bolt".
Proof.
  rewrite (run_writes_only_result_cells numericise_digits client_timeout
             sheet_five_unprocessed None five_unprocessed_records 3 2).
  - reflexivity.
  - vm_cast_no_check (eq_refl (Ok five_unprocessed_records)).
  - lia.
  - lia.
  - right. split; vm_compute; discriminate.
Defined.

(** X17. A negative [max_records = n] cuts the batch from the end: the run
    handles all unprocessed records but the last [-n], in order, and ends
    without an error. *)
Theorem negative_limit_drops_last_records
    (numericise : string → cell) (client : string → string + string)
    (ws : Worksheet) (n : Z) (us : list sheet_record) :
  n < 0 →
  get_unprocessed_records numericise ws = Ok us →
  let r := process_unprocessed_records numericise client ws (Some n) in
  run_error r = None
  ∧ map g_record (run_graded r) = take (length us - Z.to_nat (- n)) us.
Proof.
  intros Hn Hget. cbv zeta.
  rewrite (process_unprocessed_records_loop _ _ _ _ _ Hget).
  pose proof (limited_locators numericise ws (Some n) us Hget) as Hinc.
  assert (limit_records (Some n) us = take (length us - Z.to_nat (- n)) us) as E.
  { simpl. destruct (n =? 0) eqn:E0; [apply Z.eqb_eq in E0; lia|].
    unfold py_slice_to. destruct (0 <=? n) eqn:E1; [apply Z.leb_le in E1; lia|done]. }
  rewrite E in *.
  destruct (process_records_graded client _ 2 ws [] ltac:(lia) Hinc) as [Herr Hgr].
  split; [done|]. rewrite Hgr. simpl.
  rewrite <- list_fmap_compose. by rewrite list_fmap_id.
Qed.

Lemma negative_limit_drops_last_records_witness :
  length (run_graded (process_unprocessed_records numericise_digits client_timeout
                        sheet_five_unprocessed (Some (-2)))) = 3%nat.
Proof.
  destruct (negative_limit_drops_last_records numericise_digits client_timeout
              sheet_five_unprocessed (-2) five_unprocessed_records)
    as [_ Hrecs].
  - lia.
  - vm_cast_no_check (eq_refl (Ok five_unprocessed_records)).
  - apply (f_equal length) in Hrecs. rewrite List.length_map in Hrecs.
    rewrite Hrecs. vm_compute. reflexivity.
Defined.

(** X18. After [setup_required_columns] the results of a run land in the
    sheet: the header row has a "Research Notes" and a "Decision" column,
    and for every record of the batch the two cells of its locator row hold
    the notes and the decision it was graded with. *)
Theorem setup_then_run_writes_results
    (numericise : string → cell) (client : string → string + string)
    (ws : Worksheet) (max_records : option Z)
    (us : list sheet_record) (record : sheet_record) (L : Z) :
  let ws1 := (setup_required_columns ws).1 in
  get_unprocessed_records numericise ws1 = Ok us →
  record ∈ limit_records max_records us →
  row_locator record = Some L →
  ∃ kn kd,
    index_of "Research Notes" (ws_header_values ws1) = Some kn
    ∧ index_of "Decision" (ws_header_values ws1) = Some kd
    ∧ cell_text (run_sheet (process_unprocessed_records numericise client ws1
                              max_records)) L (Z.of_nat kn + 1)
      = (research_and_grade_company client record).1
    ∧ cell_text (run_sheet (process_unprocessed_records numericise client ws1
                              max_records)) L (Z.of_nat kd + 1)
      = (research_and_grade_company client record).2.
Proof.
  cbv zeta. intros Hget Hin HL. unfold setup_required_columns in *.
  set (ws1 := (add_columns_if_missing ws ["Research Notes"; "Decision"]).1) in *.
  destruct (index_of_elem "Research Notes" (ws_header_values ws1)) as [kn Hkn].
  { apply add_columns_if_missing_present; [apply list_elem_of_here|done]. }
  destruct (index_of_elem "Decision" (ws_header_values ws1)) as [kd Hkd].
  { apply add_columns_if_missing_present;
      [apply list_elem_of_further, list_elem_of_here|done]. }
  exists kn, kd. split; [done|]. split; [done|].
  rewrite (process_unprocessed_records_loop _ _ _ _ _ Hget).
  pose proof (limited_locators numericise ws1 max_records us Hget) as Hinc.
  destruct (process_records_cells client _ 2 ws1 [] record L ltac:(lia) Hinc Hin HL)
    as [Hnotes Hdec].
  split; [by apply Hnotes|by apply Hdec].
Qed.

Lemma setup_then_run_writes_results_witness :
  ∃ kn kd,
    index_of "Research Notes"
      (ws_header_values (setup_required_columns sheet_without_result_columns).1)
    = Some kn
    ∧ index_of "Decision"
        (ws_header_values (setup_required_columns sheet_without_result_columns).1)
      = Some kd
    ∧ cell_text (run_sheet (process_unprocessed_records numericise_digits
                              client_timeout
                              (setup_required_columns sheet_without_result_columns).1
                              None)) 2 (Z.of_nat kn + 1)
      = (research_and_grade_company client_timeout record_after_setup).1
    ∧ cell_text (run_sheet (process_unprocessed_records numericise_digits
                              client_timeout
                              (setup_required_columns sheet_without_result_columns).1
                              None)) 2 (Z.of_nat kd + 1)
      = (research_and_grade_company client_timeout record_after_setup).2.
Proof.
  apply (setup_then_run_writes_results numericise_digits client_timeout
           sheet_without_result_columns None [record_after_setup]
           record_after_setup 2).
  - vm_cast_no_check (eq_refl (Ok [record_after_setup])).
  - apply list_elem_of_here.
  - vm_compute. reflexivity.
Defined.

(** * Configuration *)

Section ConfigFacts.

Implicit Types (s t : string).

Lemma length_app_string s t :
  String.length (s +:+ t) = (String.length s + String.length t)%nat.
Proof.
  induction s as [|c s IH]; [done|].
  rewrite PyStrFacts.app_cons. simpl. by rewrite IH.
Qed.

Lemma after_prefix_app (p t : string) : after_prefix p (p +:+ t) = Some t.
Proof.
  induction p as [|c p IH]; [done|].
  rewrite PyStrFacts.app_cons. simpl. by rewrite Ascii.eqb_refl.
Qed.

Lemma after_prefix_inv (p s r : string) :
  after_prefix p s = Some r → s = p +:+ r.
Proof.
  revert s. induction p as [|c p IH]; intros s H; simpl in H.
  - by injection H as ->.
  - destruct s as [|d s]; [done|].
    destruct (Ascii.eqb c d) eqn:E; [|done]. apply Ascii.eqb_eq in E as ->.
    by rewrite (IH _ H).
Qed.

(** A text that starts a concatenation and is no longer than its first
    part starts that part. *)
Lemma app_eq_prefix (p r X Y : string) :
  p +:+ r = X +:+ Y → (String.length p ≤ String.length X)%nat →
  ∃ z, X = p +:+ z.
Proof.
  revert X. induction p as [|a p IH]; intros X H Hlen; [by exists X|].
  destruct X as [|b X]; [simpl in Hlen; lia|].
  rewrite !PyStrFacts.app_cons in H. injection H as -> H.
  destruct (IH X H) as [z ->]; [simpl in Hlen; lia|]. by exists z.
Qed.

Lemma contains_tail (n : string) (c : ascii) s :
  contains n (String c s) = false → contains n s = false.
Proof.
  change (contains n (String c s))
    with (String.prefix n (String c s) || contains n s).
  intros H. by apply orb_false_iff in H as [_ ?].
Qed.

Lemma take_id_chars s : all_chars is_id_char (take_id s) = true.
Proof.
  induction s as [|c s IH]; [done|]. simpl.
  destruct (is_id_char c) eqn:E; [|done]. simpl. by rewrite E.
Qed.

Lemma take_id_prefix s : ∃ r, s = take_id s +:+ r.
Proof.
  induction s as [|c s [r IH]]; [by exists ""|]. simpl.
  destruct (is_id_char c).
  - exists r. rewrite PyStrFacts.app_cons. by rewrite <- IH.
  - by exists (String c s).
Qed.

Lemma take_id_run (sheet_id rest : string) :
  all_chars is_id_char sheet_id = true →
  match rest with "" => True | String c _ => is_id_char c = false end →
  take_id (sheet_id +:+ rest) = sheet_id.
Proof.
  intros Hid Hrest. induction sheet_id as [|c sheet_id IH].
  - destruct rest as [|c rest]; [done|]. simpl. by rewrite Hrest.
  - simpl in Hid. apply andb_true_iff in Hid as [Hc Hid].
    rewrite PyStrFacts.app_cons. simpl. by rewrite Hc, IH.
Qed.

Lemma match_sheet_id_here_inv s (sheet_id : string) :
  match_sheet_id_here s = Some sheet_id →
  truthy sheet_id = true
  ∧ all_chars is_id_char sheet_id = true
  ∧ ∃ r, s = (sheet_url_literal +:+ sheet_id) +:+ r.
Proof.
  unfold match_sheet_id_here.
  destruct (after_prefix "/spreadsheets/d/" s) as [rest|] eqn:E; [|done].
  apply after_prefix_inv in E.
  pose proof (take_id_chars rest) as Hchars.
  destruct (take_id_prefix rest) as [r Hr].
  destruct (take_id rest) as [|c t] eqn:Et; [done|].
  intros [= <-]. split_and!; [done|done|].
  exists r. rewrite E, Hr. by rewrite PyStrFacts.app_assoc.
Qed.

Lemma search_sheet_id_sound s (sheet_id : string) :
  search_sheet_id s = Some sheet_id →
  truthy sheet_id = true
  ∧ all_chars is_id_char sheet_id = true
  ∧ contains (sheet_url_literal +:+ sheet_id) s = true.
Proof.
  induction s as [|c s IH].
  - intros H. vm_compute in H. done.
  - change (search_sheet_id (String c s))
      with (match match_sheet_id_here (String c s) with
            | Some i => Some i
            | None => search_sheet_id s
            end).
    destruct (match_sheet_id_here (String c s)) as [i|] eqn:E.
    + intros [= <-]. destruct (match_sheet_id_here_inv _ _ E) as (H1 & H2 & r & Hr).
      split_and!; [done|done|]. rewrite Hr.
      apply PyStrFacts.contains_prefix, PyStrFacts.prefix_app.
    + intros H. destruct (IH H) as (H1 & H2 & H3). split_and!; [done|done|].
      change (String.prefix (sheet_url_literal +:+ sheet_id) (String c s)
              || contains (sheet_url_literal +:+ sheet_id) s = true).
      rewrite H3. apply orb_true_r.
Qed.

Lemma match_sheet_id_here_none s :
  contains sheet_url_literal s = false → match_sheet_id_here s = None.
Proof.
  intros H. unfold match_sheet_id_here.
  destruct (after_prefix "/spreadsheets/d/" s) as [rest|] eqn:E; [|done].
  apply after_prefix_inv in E. rewrite E in H.
  by rewrite (PyStrFacts.contains_prefix _ _ (PyStrFacts.prefix_app _ _)) in H.
Qed.

Lemma search_sheet_id_none s :
  contains sheet_url_literal s = false → search_sheet_id s = None.
Proof.
  induction s as [|c s IH]; intros H; [done|].
  change (search_sheet_id (String c s))
    with (match match_sheet_id_here (String c s) with
          | Some i => Some i
          | None => search_sheet_id s
          end).
  rewrite match_sheet_id_here_none by done. apply IH. by eapply contains_tail.
Qed.

(** The pattern does not match at a position before the literal when the
    literal does not start there. *)
Lemma search_sheet_id_skip (a tail : string) :
  contains sheet_url_literal (a +:+ "/spreadsheets/d") = false →
  search_sheet_id (a +:+ sheet_url_literal +:+ tail)
  = search_sheet_id (sheet_url_literal +:+ tail).
Proof.
  induction a as [|c a IH]; intros H; [done|].
  rewrite PyStrFacts.app_cons in *.
  change (search_sheet_id (String c (a +:+ sheet_url_literal +:+ tail)))
    with (match match_sheet_id_here (String c (a +:+ sheet_url_literal +:+ tail)) with
          | Some i => Some i
          | None => search_sheet_id (a +:+ sheet_url_literal +:+ tail)
          end).
  assert (match_sheet_id_here (String c (a +:+ sheet_url_literal +:+ tail)) = None)
    as ->.
  { unfold match_sheet_id_here.
    destruct (after_prefix "/spreadsheets/d/"
                (String c (a +:+ sheet_url_literal +:+ tail))) as [rest|] eqn:E;
      [|done].
    exfalso. apply after_prefix_inv in E.
    assert (String c (a +:+ sheet_url_literal +:+ tail)
            = String c (a +:+ "/spreadsheets/d") +:+ ("/" +:+ tail)) as E'.
    { rewrite PyStrFacts.app_cons. f_equal.
      by rewrite <- PyStrFacts.app_assoc. }
    rewrite E' in E. symmetry in E.
    destruct (app_eq_prefix _ _ _ _ E) as [z Hz].
    { simpl. rewrite length_app_string. simpl. lia. }
    rewrite Hz in H.
    by rewrite (PyStrFacts.contains_prefix _ _ (PyStrFacts.prefix_app _ _)) in H. }
  apply IH. by eapply contains_tail.
Qed.

Lemma search_sheet_id_here s (sheet_id : string) :
  match_sheet_id_here s = Some sheet_id → search_sheet_id s = Some sheet_id.
Proof.
  intros H. destruct s as [|c s]; [vm_compute in H; done|].
  change (search_sheet_id (String c s))
    with (match match_sheet_id_here (String c s) with
          | Some i => Some i
          | None => search_sheet_id s
          end).
  by rewrite H.
Qed.

End ConfigFacts.

(** X19. An id returned by [get_sheet_id] is never empty, is made of
    letters, digits, '-' and '_' only, and stands in the URL right after the
    text "/spreadsheets/d/". *)
Theorem get_sheet_id_sound (sheet_url : option string) (sheet_id : string) :
  get_sheet_id sheet_url = Some sheet_id →
  truthy sheet_id = true
  ∧ all_chars is_id_char sheet_id = true
  ∧ ∃ url, sheet_url = Some url
           ∧ contains (sheet_url_literal +:+ sheet_id) url = true.
Proof.
  unfold get_sheet_id. destruct sheet_url as [url|]; [|done].
  destruct (truthy url); [|done]. intros H.
  destruct (search_sheet_id_sound _ _ H) as (H1 & H2 & H3). eauto.
Qed.

Lemma get_sheet_id_sound_witness :
  truthy "1AbC-d_9" = true
  ∧ all_chars is_id_char "1AbC-d_9" = true
  ∧ ∃ url, BLOG_SHEET_URL config_with_bad_media_url = Some url
           ∧ contains (sheet_url_literal +:+ "1AbC-d_9") url = true.
Proof.
  apply (get_sheet_id_sound (BLOG_SHEET_URL config_with_bad_media_url)).
  reflexivity.
Defined.

(** X20. [get_sheet_id] gives back the id a sheet URL was built from: for
    a URL made of a part in which "/spreadsheets/d/" does not start, then
    "/spreadsheets/d/", then a non-empty id of letters, digits, '-' and '_',
    then nothing or a text that starts with another character, the result
    is that id. *)
Theorem get_sheet_id_of_sheet_url (a sheet_id rest : string) :
  contains sheet_url_literal (a +:+ "/spreadsheets/d") = false →
  truthy sheet_id = true →
  all_chars is_id_char sheet_id = true →
  match rest with "" => True | String c _ => is_id_char c = false end →
  get_sheet_id (Some (a +:+ sheet_url_literal +:+ sheet_id +:+ rest)) = Some sheet_id.
Proof.
  intros Ha Hne Hid Hrest. unfold get_sheet_id.
  assert (truthy (a +:+ sheet_url_literal +:+ sheet_id +:+ rest) = true) as ->.
  { destruct a; [reflexivity|by rewrite PyStrFacts.app_cons]. }
  rewrite search_sheet_id_skip by done.
  apply search_sheet_id_here. unfold match_sheet_id_here.
  change "/spreadsheets/d/" with sheet_url_literal at 1.
  rewrite after_prefix_app, take_id_run by done. by destruct sheet_id.
Qed.

Lemma get_sheet_id_of_sheet_url_witness :
  get_sheet_id (Some "https://docs.google.com/spreadsheets/d/1AbC-d_9/edit#gid=0")
  = Some "1AbC-d_9".
Proof.
  apply (get_sheet_id_of_sheet_url "https://docs.google.com" "1AbC-d_9" "/edit#gid=0");
    reflexivity.
Defined.

(** X21. [get_sheet_id] returns [None] for an unset URL, for the empty
    URL, and for every URL that does not contain "/spreadsheets/d/". *)
Theorem get_sheet_id_none (sheet_url : option string) :
  (∀ url, sheet_url = Some url → contains sheet_url_literal url = false) →
  get_sheet_id sheet_url = None.
Proof.
  intros H. unfold get_sheet_id. destruct sheet_url as [url|]; [|done].
  destruct (truthy url); [|done]. apply search_sheet_id_none. by apply H.
Qed.

Lemma get_sheet_id_none_witness :
  get_sheet_id (Some "https://example.com/media") = None.
Proof.
  apply get_sheet_id_none. intros url [= <-]. reflexivity.
Defined.

(** X22. [validate_config] returns [True] exactly when the five Google
    variables are set to non-empty texts and, if [require_openai] is given,
    the OpenAI key as well; otherwise it raises [ValueError]. *)
Theorem validate_config_passes_iff (cfg : Config) (require_openai : bool) :
  (validate_config cfg require_openai = Passed true
   ↔ (require_openai = true → opt_truthy (OPENAI_API_KEY cfg) = true)
     ∧ opt_truthy (GOOGLE_CLIENT_ID cfg) = true
     ∧ opt_truthy (GOOGLE_CLIENT_SECRET cfg) = true
     ∧ opt_truthy (GOOGLE_REFRESH_TOKEN cfg) = true
     ∧ opt_truthy (MEDIA_SHEET_URL cfg) = true
     ∧ opt_truthy (BLOG_SHEET_URL cfg) = true)
  ∧ (validate_config cfg require_openai ≠ Passed true →
     ∃ msg, validate_config cfg require_openai = ValueError msg).
Proof.
  unfold validate_config, missing_variables.
  destruct require_openai,
    (opt_truthy (OPENAI_API_KEY cfg)), (opt_truthy (GOOGLE_CLIENT_ID cfg)),
    (opt_truthy (GOOGLE_CLIENT_SECRET cfg)), (opt_truthy (GOOGLE_REFRESH_TOKEN cfg)),
    (opt_truthy (MEDIA_SHEET_URL cfg)), (opt_truthy (BLOG_SHEET_URL cfg));
    simpl; (split; [split; [intros; try done; by split_and!
                           |intros (H0 & ? & ? & ? & ? & ?); try done;
                            try (by specialize (H0 eq_refl))]
                   |intros; try done; eauto]).
Qed.

Lemma validate_config_passes_iff_witness :
  validate_config config_with_bad_media_url true = Passed true.
Proof.
  apply (proj1 (validate_config_passes_iff config_with_bad_media_url true)).
  by split_and!.
Defined.

(** X23. The handler opens a sheet only under an id [get_sheet_id] found:
    when [connect_sheet_id] passes, the sheet type is "media" or "blog" and
    the id is the one of that type's URL; and for "media" it raises "No
    media sheet ID found" whenever the media URL has no id, also when
    [validate_config] accepted the configuration. *)
Theorem connect_sheet_id_needs_sheet_url (cfg : Config) :
  (∀ sheet_type sheet_id,
     connect_sheet_id cfg sheet_type = Passed sheet_id →
     (sheet_type = "media" ∧ MEDIA_SHEET_ID cfg = Some sheet_id)
     ∨ (sheet_type = "blog" ∧ BLOG_SHEET_ID cfg = Some sheet_id))
  ∧ (MEDIA_SHEET_ID cfg = None →
     connect_sheet_id cfg "media" = ValueError "No media sheet ID found").
Proof.
  split.
  - intros sheet_type sheet_id. unfold connect_sheet_id.
    destruct (String.eqb sheet_type "media") eqn:Em.
    + apply String.eqb_eq in Em as ->.
      destruct (MEDIA_SHEET_ID cfg) as [i|]; [|done].
      destruct (truthy i); [|done]. intros [= ->]. by left.
    + destruct (String.eqb sheet_type "blog") eqn:Eb; [|done].
      apply String.eqb_eq in Eb as ->.
      destruct (BLOG_SHEET_ID cfg) as [i|]; [|done].
      destruct (truthy i); [|done]. intros [= ->]. by right.
  - intros H. unfold connect_sheet_id. simpl. by rewrite H.
Qed.

Lemma connect_sheet_id_needs_sheet_url_witness :
  validate_config config_with_bad_media_url true = Passed true
  ∧ connect_sheet_id config_with_bad_media_url "media"
    = ValueError "No media sheet ID found"
  ∧ connect_sheet_id config_with_bad_media_url "blog" = Passed "1AbC-d_9".
Proof.
  destruct (connect_sheet_id_needs_sheet_url config_with_bad_media_url) as [_ H].
  split; [reflexivity|]. split; [|reflexivity]. apply H. reflexivity.
Defined.
